(** * Milestone update: field merge, order reindexing and date cascade

    A shallow embedding of [src/routes/milestones/update.js]: the request
    handler that edits one milestone of a timeline, renumbers the orders of
    its neighbours, cascades start and end dates to the milestones that come
    after it and synchronises the end date of the timeline. *)

From Stdlib Require Import ZArith List String Bool Lia Permutation Sorted.
Import ListNotations.
Local Open Scope Z_scope.
Local Open Scope bool_scope.

(* ------------------------------------------------------------------ *)
(** ** Dates *)

(** A JavaScript [Date] is a number of milliseconds since the Unix epoch. *)
Definition Date : Type := Z.

Definition MS_PER_DAY : Z := 86400000.

(** [moment.utc(d).add(n, 'days').toDate()] *)
Definition addDays (d : Date) (n : Z) : Date := d + n * MS_PER_DAY.

(** [moment.utc().hours(0).minutes(0).seconds(0).milliseconds(0)], for a
    clock that reads [now]. *)
Definition utcMidnight (now : Date) : Date := (now / MS_PER_DAY) * MS_PER_DAY.

(** The calendar day [y-m-d] at UTC midnight (proleptic Gregorian calendar),
    only used to write the dates of the scenarios. *)
Definition daysFromCivil (y m d : Z) : Z :=
  let y' := if m <=? 2 then y - 1 else y in
  let era := y' / 400 in
  let yoe := y' - era * 400 in
  let mp := if 2 <? m then m - 3 else m + 9 in
  let doy := (153 * mp + 2) / 5 + d - 1 in
  let doe := yoe * 365 + yoe / 4 - yoe / 100 + doy in
  era * 146097 + doe - 719468.

Definition utcDate (y m d : Z) : Date := daysFromCivil y m d * MS_PER_DAY.

Arguments addDays : simpl never.
Arguments utcMidnight : simpl never.
Arguments utcDate : simpl never.

(** [_.isEqual] on two dates, and on two values that are a date or [null]. *)
Definition isEqualDate (a b : Date) : bool := a =? b.

Definition isEqual (a b : option Date) : bool :=
  match a, b with
  | Some x, Some y => x =? y
  | None, None => true
  | _, _ => false
  end.

(** JavaScript truthiness of a number and of a string. *)
Definition truthyNum (n : Z) : bool := negb (n =? 0).

Definition truthyStr (s : string) : bool :=
  match s with EmptyString => false | _ => true end.

(* ------------------------------------------------------------------ *)
(** ** Constants and helpers of the repository used by the handler *)

(** Modelled from the spec: the status names of [MILESTONE_STATUS] in
    [src/constants.js], which is not part of the sources at hand. *)
Module MILESTONE_STATUS.
Definition PLANNED : string := "planned".
Definition ACTIVE : string := "active".
Definition COMPLETED : string := "completed".
Definition BLOCKED : string := "blocked".
End MILESTONE_STATUS.

(** The [details] payload: a JSON object, here a list of key/value pairs. *)
Definition Json : Type := list (string * string).

Fixpoint jsonSet (k v : string) (o : Json) : Json :=
  match o with
  | [] => [(k, v)]
  | (k', v') :: rest =>
      if String.eqb k k' then (k, v) :: rest else (k', v') :: jsonSet k v rest
  end.

(** Modelled from the spec: [util.mergeJsonObjects], which is not part of the
    sources at hand: the keys of the request are merged one by one into the
    stored object, the keys the request does not name are preserved. *)
Definition mergeJsonObjects (target : Json) (source : option Json) : Json :=
  match source with
  | None => target
  | Some s => fold_left (fun acc kv => jsonSet (fst kv) (snd kv) acc) s target
  end.

(* ------------------------------------------------------------------ *)
(** ** Data model *)

(** Modelled from the spec: the columns of the Milestone model
    ([src/models/milestone.js] is not part of the sources at hand).
    [completionDate] is a date or [null]. *)
Module Milestone.
Record t : Type := mk {
  id : Z;
  timelineId : Z;
  name : string;
  description : string;
  duration : Z;
  startDate : Date;
  endDate : Date;
  completionDate : option Date;
  status : string;
  type : string;
  details : Json;
  order : Z;
  plannedText : string;
  activeText : string;
  completedText : string;
  blockedText : string;
  hidden : bool;
  updatedBy : Z
}.

Definition set_startDate (v : Date) (m : t) : t :=
  mk (id m) (timelineId m) (name m) (description m) (duration m) v
     (endDate m) (completionDate m) (status m) (type m) (details m)
     (order m) (plannedText m) (activeText m) (completedText m)
     (blockedText m) (hidden m) (updatedBy m).

Definition set_endDate (v : Date) (m : t) : t :=
  mk (id m) (timelineId m) (name m) (description m) (duration m)
     (startDate m) v (completionDate m) (status m) (type m) (details m)
     (order m) (plannedText m) (activeText m) (completedText m)
     (blockedText m) (hidden m) (updatedBy m).

Definition set_status (v : string) (m : t) : t :=
  mk (id m) (timelineId m) (name m) (description m) (duration m)
     (startDate m) (endDate m) (completionDate m) v (type m) (details m)
     (order m) (plannedText m) (activeText m) (completedText m)
     (blockedText m) (hidden m) (updatedBy m).

Definition set_order (v : Z) (m : t) : t :=
  mk (id m) (timelineId m) (name m) (description m) (duration m)
     (startDate m) (endDate m) (completionDate m) (status m) (type m)
     (details m) v (plannedText m) (activeText m) (completedText m)
     (blockedText m) (hidden m) (updatedBy m).

Definition set_updatedBy (v : Z) (m : t) : t :=
  mk (id m) (timelineId m) (name m) (description m) (duration m)
     (startDate m) (endDate m) (completionDate m) (status m) (type m)
     (details m) (order m) (plannedText m) (activeText m) (completedText m)
     (blockedText m) (hidden m) v.
End Milestone.

(** Modelled from the spec: the columns of the Timeline model the handler
    reads and writes ([endDate] may still be [null]). *)
Module Timeline.
Record t : Type := mk {
  id : Z;
  endDate : option Date;
  updatedBy : Z
}.
End Timeline.

(** [req.body.param] once the Joi [schema] has accepted it: every key is
    optional, [completionDate] may be a date or an explicit [null],
    [startDate] and [endDate] are forbidden and the audit keys are stripped. *)
Module Param.
Record t : Type := mk {
  name : option string;
  description : option string;
  duration : option Z;
  completionDate : option (option Date);
  status : option string;
  type : option string;
  details : option Json;
  order : option Z;
  plannedText : option string;
  activeText : option string;
  completedText : option string;
  blockedText : option string;
  hidden : option bool
}.

(** The body without any key. *)
Definition empty : t :=
  mk None None None None None None None None None None None None None.
End Param.

(** [entityToUpdate]: the body, to which the handler assigns [updatedBy] and
    [timelineId], and later [details], [endDate], [startDate],
    [completionDate] and [status]. *)
Module Entity.
Record t : Type := mk {
  name : option string;
  description : option string;
  duration : option Z;
  startDate : option Date;
  endDate : option Date;
  completionDate : option (option Date);
  status : option string;
  type : option string;
  details : option Json;
  order : option Z;
  plannedText : option string;
  activeText : option string;
  completedText : option string;
  blockedText : option string;
  hidden : option bool;
  updatedBy : Z;
  timelineId : Z
}.

Definition set_details (v : Json) (e : t) : t :=
  mk (name e) (description e) (duration e) (startDate e) (endDate e)
     (completionDate e) (status e) (type e) (Some v) (order e)
     (plannedText e) (activeText e) (completedText e) (blockedText e)
     (hidden e) (updatedBy e) (timelineId e).

Definition set_endDate (v : Date) (e : t) : t :=
  mk (name e) (description e) (duration e) (startDate e) (Some v)
     (completionDate e) (status e) (type e) (details e) (order e)
     (plannedText e) (activeText e) (completedText e) (blockedText e)
     (hidden e) (updatedBy e) (timelineId e).

Definition set_startDate (v : Date) (e : t) : t :=
  mk (name e) (description e) (duration e) (Some v) (endDate e)
     (completionDate e) (status e) (type e) (details e) (order e)
     (plannedText e) (activeText e) (completedText e) (blockedText e)
     (hidden e) (updatedBy e) (timelineId e).

Definition set_completionDate (v : Date) (e : t) : t :=
  mk (name e) (description e) (duration e) (startDate e) (endDate e)
     (Some (Some v)) (status e) (type e) (details e) (order e)
     (plannedText e) (activeText e) (completedText e) (blockedText e)
     (hidden e) (updatedBy e) (timelineId e).

Definition set_status (v : string) (e : t) : t :=
  mk (name e) (description e) (duration e) (startDate e) (endDate e)
     (completionDate e) (Some v) (type e) (details e) (order e)
     (plannedText e) (activeText e) (completedText e) (blockedText e)
     (hidden e) (updatedBy e) (timelineId e).
End Entity.

(** The parts of the request the handler reads. *)
Module Request.
Record t : Type := mk {
  timelineId : Z;      (* req.params.timelineId *)
  milestoneId : Z;     (* req.params.milestoneId *)
  userId : Z;          (* req.authUser.userId *)
  param : Param.t      (* req.body.param *)
}.
End Request.

(** [_.assign(req.body.param, { updatedBy, timelineId })] *)
Definition entityOfRequest (req : Request.t) : Entity.t :=
  let p := Request.param req in
  Entity.mk (Param.name p) (Param.description p) (Param.duration p) None None
    (Param.completionDate p) (Param.status p) (Param.type p) (Param.details p)
    (Param.order p) (Param.plannedText p) (Param.activeText p)
    (Param.completedText p) (Param.blockedText p) (Param.hidden p)
    (Request.userId req) (Request.timelineId req).

(* ------------------------------------------------------------------ *)
(** ** The store and the transaction monad *)

(** The rows of the milestone table, in the order the database returns them,
    and the timeline of the request ([req.timeline]). *)
Record DB : Type := mkDB {
  milestones : list Milestone.t;
  timeline : Timeline.t
}.

(** A promise either resolves to a value or is rejected with an HTTP
    status. *)
Inductive Result (A : Type) : Type :=
| Resolved (a : A)
| Rejected (httpStatus : Z).
Arguments Resolved {A} a.
Arguments Rejected {A} httpStatus.

(** A unit of work reads and writes the store. *)
Definition Tx (A : Type) : Type := DB -> Result A * DB.

Definition ret {A} (a : A) : Tx A := fun db => (Resolved a, db).

Definition reject {A} (httpStatus : Z) : Tx A :=
  fun db => (Rejected httpStatus, db).

Definition bind {A B} (m : Tx A) (k : A -> Tx B) : Tx B :=
  fun db =>
    match m db with
    | (Resolved a, db') => k a db'
    | (Rejected e, db') => (Rejected e, db')
    end.

Notation "x <- m ;; k" := (bind m (fun x => k))
  (at level 61, m at next level, right associativity).
Notation "m ;;; k" := (bind m (fun _ => k))
  (at level 61, right associativity).

(** [models.sequelize.transaction]: a rejected unit of work is rolled back. *)
Definition transaction {A} (work : Tx A) : Tx A :=
  fun db =>
    match work db with
    | (Resolved a, db') => (Resolved a, db')
    | (Rejected e, _) => (Rejected e, db)
    end.

(* ------------------------------------------------------------------ *)
(** ** Queries of the persistence layer *)

(** [models.Milestone.findOne({ where: { timelineId, id } })] *)
Definition Milestone_findOne (timelineId id : Z) : Tx (option Milestone.t) :=
  fun db =>
    (Resolved
       (find (fun r => (Milestone.timelineId r =? timelineId)
                       && (Milestone.id r =? id)) (milestones db)), db).

(** [models.Milestone.findAll({ where: { timelineId, order: { $gt } } })] *)
Definition Milestone_findAll (timelineId order : Z) : Tx (list Milestone.t) :=
  fun db =>
    (Resolved
       (filter (fun r => (Milestone.timelineId r =? timelineId)
                         && (order <? Milestone.order r)) (milestones db)), db).

(** [models.Milestone.count({ where: { timelineId, id: { $ne }, order } })] *)
Definition Milestone_count (timelineId id order : Z) : Tx Z :=
  fun db =>
    (Resolved
       (Z.of_nat
          (List.length
             (filter (fun r => (Milestone.timelineId r =? timelineId)
                               && negb (Milestone.id r =? id)
                               && (Milestone.order r =? order))
                     (milestones db)))), db).

(** [models.Milestone.update({ order: literal('"order" + delta') },
    { where: { timelineId, id: { $ne }, order: { $between: [lo, hi] } } })] *)
Definition Milestone_update (delta timelineId id lo hi : Z) : Tx unit :=
  fun db =>
    (Resolved tt,
     mkDB (map (fun r =>
                  if (Milestone.timelineId r =? timelineId)
                     && negb (Milestone.id r =? id)
                     && ((lo <=? Milestone.order r) && (Milestone.order r <=? hi))
                  then Milestone.set_order (Milestone.order r + delta) r
                  else r) (milestones db))
          (timeline db)).

(** Writing one instance back: the row of its primary key is replaced. *)
Definition writeRow (m : Milestone.t) (rows : list Milestone.t) : list Milestone.t :=
  map (fun r => if Milestone.id r =? Milestone.id m then m else r) rows.

(** [milestone.save()] *)
Definition milestone_save (m : Milestone.t) : Tx Milestone.t :=
  fun db => (Resolved m, mkDB (writeRow m (milestones db)) (timeline db)).

(** [timeline.save()] *)
Definition timeline_save (t : Timeline.t) : Tx unit :=
  fun db => (Resolved tt, mkDB (milestones db) t).

Definition orElse {A} (o : option A) (d : A) : A :=
  match o with Some v => v | None => d end.

(** The values [milestone.update(entityToUpdate)] sets on the instance:
    every key the entity has replaces the stored column. *)
Definition assignEntity (m : Milestone.t) (e : Entity.t) : Milestone.t :=
  Milestone.mk
    (Milestone.id m)
    (Entity.timelineId e)
    (orElse (Entity.name e) (Milestone.name m))
    (orElse (Entity.description e) (Milestone.description m))
    (orElse (Entity.duration e) (Milestone.duration m))
    (orElse (Entity.startDate e) (Milestone.startDate m))
    (orElse (Entity.endDate e) (Milestone.endDate m))
    (orElse (Entity.completionDate e) (Milestone.completionDate m))
    (orElse (Entity.status e) (Milestone.status m))
    (orElse (Entity.type e) (Milestone.type m))
    (orElse (Entity.details e) (Milestone.details m))
    (orElse (Entity.order e) (Milestone.order m))
    (orElse (Entity.plannedText e) (Milestone.plannedText m))
    (orElse (Entity.activeText e) (Milestone.activeText m))
    (orElse (Entity.completedText e) (Milestone.completedText m))
    (orElse (Entity.blockedText e) (Milestone.blockedText m))
    (orElse (Entity.hidden e) (Milestone.hidden m))
    (Entity.updatedBy e).

(** [milestone.update(entityToUpdate)] *)
Definition milestone_update (m : Milestone.t) (e : Entity.t) : Tx Milestone.t :=
  milestone_save (assignEntity m e).

(* ------------------------------------------------------------------ *)
(** ** The date cascade *)

(** [_.sortBy(affectedMilestones, 'order')]: a stable sort, ascending. *)
Fixpoint insertByOrder (m : Milestone.t) (l : list Milestone.t) : list Milestone.t :=
  match l with
  | [] => [m]
  | x :: rest =>
      if Milestone.order m <=? Milestone.order x then m :: x :: rest
      else x :: insertByOrder m rest
  end.

Definition sortByOrder (l : list Milestone.t) : list Milestone.t :=
  fold_right insertByOrder [] l.

(** The start date that follows a milestone: the day after its
    [completionDate] when it has one, after its [endDate] otherwise. *)
Definition nextStartDate (m : Milestone.t) : Date :=
  addDays (orElse (Milestone.completionDate m) (Milestone.endDate m)) 1.

(** One iteration of the callback of [_.map(comingMilestones, ...)]:
    the milestone as it is saved, and the new [firstMilestoneFound]. *)
Definition cascadeStep (updatedBy : Z) (completionDateChanged : bool)
    (startDate : Date) (firstMilestoneFound : bool) (milestone : Milestone.t)
  : Milestone.t * bool :=
  let m1 :=
    if negb (isEqualDate (Milestone.startDate milestone) startDate)
    then Milestone.set_updatedBy updatedBy (Milestone.set_startDate startDate milestone)
    else milestone in
  let endDate := addDays startDate (Milestone.duration m1 - 1) in
  let m2 :=
    if negb (isEqualDate (Milestone.endDate m1) endDate)
    then Milestone.set_updatedBy updatedBy (Milestone.set_endDate endDate m1)
    else m1 in
  if negb firstMilestoneFound && completionDateChanged && negb (Milestone.hidden m2)
  then (Milestone.set_status MILESTONE_STATUS.ACTIVE m2, true)
  else (m2, firstMilestoneFound).

(** The whole [_.map]: [startDate] and [firstMilestoneFound] are the two
    variables the callback closes over. *)
Fixpoint cascadeLoop (updatedBy : Z) (completionDateChanged : bool)
    (startDate : Date) (firstMilestoneFound : bool)
    (comingMilestones : list Milestone.t) : list Milestone.t :=
  match comingMilestones with
  | [] => []
  | milestone :: rest =>
      let (saved, found) :=
        cascadeStep updatedBy completionDateChanged startDate
                    firstMilestoneFound milestone in
      saved :: cascadeLoop updatedBy completionDateChanged
                           (nextStartDate saved) found rest
  end.

(** [Promise.all(promises)]: every milestone of the list is saved. *)
Fixpoint saveAll (ms : list Milestone.t) : Tx (list Milestone.t) :=
  match ms with
  | [] => ret []
  | m :: rest =>
      saved <- milestone_save m ;;
      others <- saveAll rest ;;
      ret (saved :: others)
  end.

(** [updatedMilestones.pop() || updatedMilestone] *)
Definition popOr (l : list Milestone.t) (d : Milestone.t) : Milestone.t :=
  last l d.

Definition updateComingMilestones (originalMilestone updatedMilestone : Milestone.t)
  : Tx Milestone.t :=
  let completionDateChanged :=
    negb (isEqual (Milestone.completionDate originalMilestone)
                  (Milestone.completionDate updatedMilestone)) in
  affectedMilestones <-
    Milestone_findAll (Milestone.timelineId updatedMilestone)
                      (Milestone.order updatedMilestone) ;;
  let comingMilestones := sortByOrder affectedMilestones in
  let startDate := nextStartDate updatedMilestone in
  updatedMilestones <-
    saveAll (cascadeLoop (Milestone.updatedBy updatedMilestone)
                         completionDateChanged startDate false comingMilestones) ;;
  ret (popOr updatedMilestones updatedMilestone).

(* ------------------------------------------------------------------ *)
(** ** The request handler *)

(** [entityToUpdate.duration && entityToUpdate.duration !== milestone.duration] *)
Definition durationChanged (milestone : Milestone.t) (e : Entity.t) : bool :=
  match Entity.duration e with
  | Some d => truthyNum d && negb (d =? Milestone.duration milestone)
  | None => false
  end.

(** [entityToUpdate.status && entityToUpdate.status !== milestone.status] *)
Definition statusChanged (milestone : Milestone.t) (e : Entity.t) : bool :=
  match Entity.status e with
  | Some s => truthyStr s && negb (String.eqb s (Milestone.status milestone))
  | None => false
  end.

(** [entityToUpdate.completionDate
     && !_.isEqual(milestone.completionDate, entityToUpdate.completionDate)] *)
Definition completionDateChanged (milestone : Milestone.t) (e : Entity.t) : bool :=
  match Entity.completionDate e with
  | Some (Some c) => negb (isEqual (Milestone.completionDate milestone) (Some c))
  | _ => false
  end.

(** [entityToUpdate.completionDate && entityToUpdate.completionDate
     < milestone.startDate] *)
Definition completionBeforeStart (milestone : Milestone.t) (e : Entity.t) : bool :=
  match Entity.completionDate e with
  | Some (Some c) => c <? Milestone.startDate milestone
  | _ => false
  end.

(** The assignments the handler makes to [entityToUpdate] between reading
    the milestone and [milestone.update(entityToUpdate)] (lines 146-175). *)
Definition mergeFields (today : Date) (milestone : Milestone.t) (entityToUpdate : Entity.t)
  : Entity.t :=
  let durationChanged := durationChanged milestone entityToUpdate in
  let statusChanged := statusChanged milestone entityToUpdate in
  let completionDateChanged := completionDateChanged milestone entityToUpdate in
  let e1 :=
    Entity.set_details
      (mergeJsonObjects (Milestone.details milestone) (Entity.details entityToUpdate))
      entityToUpdate in
  let e2 :=
    if durationChanged
    then Entity.set_endDate
           (addDays (Milestone.startDate milestone)
                    (orElse (Entity.duration e1) 0 - 1)) e1
    else e1 in
  let e3 :=
    if statusChanged
    then
      let e3a :=
        if String.eqb (orElse (Entity.status e2) EmptyString) MILESTONE_STATUS.COMPLETED
        then Entity.set_completionDate
               (match Entity.completionDate e2 with
                | Some (Some c) => c
                | _ => today
                end) e2
        else e2 in
      if String.eqb (orElse (Entity.status e3a) EmptyString) MILESTONE_STATUS.ACTIVE
      then Entity.set_startDate today e3a
      else e3a
    else e2 in
  if negb statusChanged && completionDateChanged
  then Entity.set_status MILESTONE_STATUS.COMPLETED e3
  else e3.

(** Lines 184-222: renumbering the other milestones when the order of the
    edited one changed and its new slot is taken. *)
Definition reindex (original updated : Milestone.t) : Tx unit :=
  if Milestone.order original =? Milestone.order updated then ret tt
  else
    count <- Milestone_count (Milestone.timelineId updated) (Milestone.id updated)
                             (Milestone.order updated) ;;
    if count =? 0 then ret tt
    else if Milestone.order original <? Milestone.order updated
    then Milestone_update (-1) (Milestone.timelineId updated) (Milestone.id updated)
                          (Milestone.order original + 1) (Milestone.order updated)
    else Milestone_update 1 (Milestone.timelineId updated) (Milestone.id updated)
                          (Milestone.order updated) (Milestone.order original - 1).

(** Lines 228-235: the end date of the timeline follows the last milestone. *)
Definition syncTimeline (lastTimelineMilestone : Milestone.t) : Tx unit :=
  fun db =>
    let timeline := timeline db in
    if negb (isEqual (Some (Milestone.endDate lastTimelineMilestone))
                     (Timeline.endDate timeline))
    then timeline_save
           (Timeline.mk (Timeline.id timeline)
                        (Some (Milestone.endDate lastTimelineMilestone))
                        (Milestone.updatedBy lastTimelineMilestone)) db
    else ret tt db.

(** [!_.isEqual(original.completionDate, updated.completionDate)
     || original.duration !== updated.duration] *)
Definition cascadeTriggered (original updated : Milestone.t) : bool :=
  negb (isEqual (Milestone.completionDate original) (Milestone.completionDate updated))
  || negb (Milestone.duration original =? Milestone.duration updated).

(** Lines 224-238. *)
Definition cascade (original updated : Milestone.t) : Tx unit :=
  if cascadeTriggered original updated
  then lastTimelineMilestone <- updateComingMilestones original updated ;;
       syncTimeline lastTimelineMilestone
  else ret tt.

(** The unit of work of the handler (lines 129-238); it resolves to the pair
    [(original, updated)] the event carries. *)
Definition work (now : Date) (req : Request.t) : Tx (Milestone.t * Milestone.t) :=
  let entityToUpdate := entityOfRequest req in
  found <- Milestone_findOne (Request.timelineId req) (Request.milestoneId req) ;;
  match found with
  | None => reject 404
  | Some milestone =>
      if completionBeforeStart milestone entityToUpdate then reject 422
      else
        let original := milestone in
        updated <- milestone_update milestone
                     (mergeFields (utcMidnight now) milestone entityToUpdate) ;;
        reindex original updated ;;;
        cascade original updated ;;;
        ret (original, updated)
  end.

(** The handler exported by the module, for a clock that reads [now]. *)
Definition update (now : Date) (req : Request.t) : Tx (Milestone.t * Milestone.t) :=
  transaction (work now req).

(* ------------------------------------------------------------------ *)
(** ** What the steps compute

    Each step of the unit of work always resolves; these definitions name
    the store it leaves behind. *)

(** The rows after every milestone of [ms] has been saved, in turn. *)
Definition writeAll (ms rows : list Milestone.t) : list Milestone.t :=
  fold_left (fun acc m => writeRow m acc) ms rows.

(** The milestones after the edited one: same timeline, greater order. *)
Definition isDownstream (updated r : Milestone.t) : bool :=
  (Milestone.timelineId r =? Milestone.timelineId updated)
  && (Milestone.order updated <? Milestone.order r).

Definition comingMilestones (updated : Milestone.t) (rows : list Milestone.t)
  : list Milestone.t :=
  sortByOrder (filter (isDownstream updated) rows).

(** The milestones [updateComingMilestones] saves, in ascending order. *)
Definition savedMilestones (original updated : Milestone.t) (rows : list Milestone.t)
  : list Milestone.t :=
  cascadeLoop (Milestone.updatedBy updated)
    (negb (isEqual (Milestone.completionDate original)
                   (Milestone.completionDate updated)))
    (nextStartDate updated) false (comingMilestones updated rows).

(** Being another milestone of the timeline of [updated]. *)
Definition isOther (updated r : Milestone.t) : bool :=
  (Milestone.timelineId r =? Milestone.timelineId updated)
  && negb (Milestone.id r =? Milestone.id updated).

(** The slot of [updated] is taken by another milestone of its timeline. *)
Definition slotOccupied (updated : Milestone.t) (rows : list Milestone.t) : bool :=
  existsb (fun r => isOther updated r
                    && (Milestone.order r =? Milestone.order updated)) rows.

(** The order [reindex] leaves to the row [r]. *)
Definition reindexedOrder (original updated : Milestone.t) (occupied : bool)
    (r : Milestone.t) : Z :=
  let M := Milestone.order original in
  let K := Milestone.order updated in
  let o := Milestone.order r in
  if negb (M =? K) && occupied && isOther updated r then
    if M <? K then (if (M + 1 <=? o) && (o <=? K) then o - 1 else o)
    else (if (K <=? o) && (o <=? M - 1) then o + 1 else o)
  else o.

Definition reindexRows (original updated : Milestone.t) (rows : list Milestone.t)
  : list Milestone.t :=
  map (fun r =>
         Milestone.set_order
           (reindexedOrder original updated (slotOccupied updated rows) r) r)
      rows.

(** The timeline after the synchroniser has looked at the last milestone. *)
Definition syncedTimeline (lastTimelineMilestone : Milestone.t) (t : Timeline.t)
  : Timeline.t :=
  if isEqual (Some (Milestone.endDate lastTimelineMilestone)) (Timeline.endDate t)
  then t
  else Timeline.mk (Timeline.id t)
                   (Some (Milestone.endDate lastTimelineMilestone))
                   (Milestone.updatedBy lastTimelineMilestone).

(** The store after lines 224-238. *)
Definition cascadeDB (original updated : Milestone.t) (db : DB) : DB :=
  if cascadeTriggered original updated
  then
    let saved := savedMilestones original updated (milestones db) in
    mkDB (writeAll saved (milestones db))
         (syncedTimeline (popOr saved updated) (timeline db))
  else db.

(** The milestone the handler persists for a request. *)
Definition resolved (now : Date) (req : Request.t) (milestone : Milestone.t)
  : Milestone.t :=
  assignEntity milestone
    (mergeFields (utcMidnight now) milestone (entityOfRequest req)).

(** The store an accepted request leaves behind. *)
Definition finalDB (now : Date) (req : Request.t) (milestone : Milestone.t) (db : DB)
  : DB :=
  let updated := resolved now req milestone in
  cascadeDB milestone updated
    (mkDB (reindexRows milestone updated (writeRow updated (milestones db)))
          (timeline db)).

(** The row the handler looks for. *)
Definition findMilestone (req : Request.t) (db : DB) : option Milestone.t :=
  find (fun r => (Milestone.timelineId r =? Request.timelineId req)
                 && (Milestone.id r =? Request.milestoneId req)) (milestones db).

(** The request asks for the status [s], which is not the stored one. *)
Definition requestedTransition (m : Milestone.t) (e : Entity.t) (s : string) : bool :=
  statusChanged m e && String.eqb (orElse (Entity.status e) EmptyString) s.

(** What persisting [updated] and reindexing does to one row. *)
Definition persistedRow (original updated : Milestone.t) (occupied : bool)
    (r : Milestone.t) : Milestone.t :=
  if Milestone.id r =? Milestone.id updated then updated
  else Milestone.set_order (reindexedOrder original updated occupied r) r.

(* ------------------------------------------------------------------ *)
(** ** Specification-side definitions *)

(** The three columns no cascade writes. *)
Definition key (m : Milestone.t) : Z * Z * Z :=
  (Milestone.id m, Milestone.timelineId m, Milestone.order m).

(** A run of milestones whose dates follow one another from [cursorStart]. *)
Fixpoint chained (cursorStart : Date) (ms : list Milestone.t) : Prop :=
  match ms with
  | [] => True
  | m :: rest =>
      Milestone.startDate m = cursorStart
      /\ Milestone.endDate m = addDays cursorStart (Milestone.duration m - 1)
      /\ chained (nextStartDate m) rest
  end.

(** The statuses after the first milestone that is not hidden has been
    activated: the spec's single-activation rule. *)
Fixpoint expectedStatuses (ms : list Milestone.t) : list string :=
  match ms with
  | [] => []
  | m :: rest =>
      if Milestone.hidden m
      then Milestone.status m :: expectedStatuses rest
      else MILESTONE_STATUS.ACTIVE :: map Milestone.status rest
  end.

(** [endDate] is [startDate] plus [duration - 1] days. *)
Definition datesConsistent (m : Milestone.t) : Prop :=
  Milestone.endDate m = addDays (Milestone.startDate m) (Milestone.duration m - 1).

(** The orders of the milestones of the timeline [t]. *)
Definition ordersOf (t : Z) (rows : list Milestone.t) : list Z :=
  map Milestone.order (filter (fun r => Milestone.timelineId r =? t) rows).

(** Ascending order. *)
Definition orderLe (a b : Milestone.t) : Prop :=
  Milestone.order a <= Milestone.order b.

Definition isHidden (m : Milestone.t) : Prop := Milestone.hidden m = true.

(* ------------------------------------------------------------------ *)
(** ** Sample data for the scenarios *)

(** A planned milestone of timeline 7. *)
Definition sampleRow (id order duration : Z) (startDate endDate : Date)
    (completionDate : option Date) (hidden : bool) : Milestone.t :=
  Milestone.mk id 7 "milestone" "description" duration startDate endDate
    completionDate MILESTONE_STATUS.PLANNED "phase" [] order
    "planned" "active" "completed" "blocked" hidden 1.

Definition sampleTimeline : Timeline.t := Timeline.mk 7 None 1.

(** A request of user 42 on a milestone of timeline 7. *)
Definition sampleRequest (milestoneId : Z) (p : Param.t) : Request.t :=
  Request.mk 7 milestoneId 42 p.

(** Bodies with a single key. *)
Definition onlyDuration (d : Z) : Param.t :=
  Param.mk None None (Some d) None None None None None None None None None None.

Definition onlyOrder (o : Z) : Param.t :=
  Param.mk None None None None None None None (Some o) None None None None None.

Definition onlyStatus (s : string) : Param.t :=
  Param.mk None None None None (Some s) None None None None None None None None.

Definition onlyCompletionDate (c : option Date) : Param.t :=
  Param.mk None None None (Some c) None None None None None None None None None.

(** Scenario A: orders 1, 2, 3 and durations 5, 3, 4. *)
Definition rowA1 : Milestone.t :=
  sampleRow 1 1 5 (utcDate 2024 1 1) (utcDate 2024 1 5) None false.
Definition rowA2 : Milestone.t :=
  sampleRow 2 2 3 (utcDate 2024 1 6) (utcDate 2024 1 8) None false.
Definition rowA3 : Milestone.t :=
  sampleRow 3 3 4 (utcDate 2024 1 9) (utcDate 2024 1 12) None false.

Definition scenarioA : DB := mkDB [rowA1; rowA2; rowA3] sampleTimeline.

(** Scenario B: orders 1, 2, 3, 4. *)
Definition rowB2 : Milestone.t :=
  sampleRow 2 2 3 (utcDate 2024 1 6) (utcDate 2024 1 8) None false.

Definition scenarioB : DB :=
  mkDB [rowA1; rowB2; rowA3;
        sampleRow 4 4 2 (utcDate 2024 1 13) (utcDate 2024 1 14) None false]
       sampleTimeline.

(** Scenario E: the first milestone was completed, the second is hidden. *)
Definition rowE1 : Milestone.t :=
  sampleRow 1 1 5 (utcDate 2024 1 1) (utcDate 2024 1 5)
            (Some (utcDate 2024 1 5)) false.

Definition scenarioE : DB :=
  mkDB [rowE1;
        sampleRow 2 2 3 (utcDate 2024 1 6) (utcDate 2024 1 8) None true;
        sampleRow 3 3 4 (utcDate 2024 1 9) (utcDate 2024 1 12) None false]
       sampleTimeline.

(** A single milestone, planned from 2024-01-01 to 2024-01-05. *)
Definition oneRow : DB := mkDB [rowA1] sampleTimeline.

(** Two milestones, of orders 1 and 2. *)
Definition twoRows : DB := mkDB [rowA1; rowA2] sampleTimeline.

(** Noon of 2024-02-01. *)
Definition noonOfFebruaryFirst : Date := utcDate 2024 2 1 + 43200000.

(* ------------------------------------------------------------------ *)
(** ** The handler, its effects and the rows it saves *)

(** The version of the row [r] among the saved milestones [ms], the row
    itself when none has its id. *)
Definition savedVersion (ms : list Milestone.t) (r : Milestone.t) : Milestone.t :=
  match find (fun m => Milestone.id m =? Milestone.id r) ms with
  | Some m => m
  | None => r
  end.

(** A milestone of another timeline, between two milestones of timeline 7. *)
Definition rowOfTimeline8 : Milestone.t :=
  Milestone.mk 9 8 "milestone" "description" 2 (utcDate 2024 3 1)
    (utcDate 2024 3 2) None MILESTONE_STATUS.PLANNED "phase" [] 2
    "planned" "active" "completed" "blocked" false 1.

Definition twoTimelines : DB :=
  mkDB [rowA1; rowOfTimeline8; rowA2; rowA3] sampleTimeline.

(** Scenario A and scenario E with the rows of orders 2 and 3 stored the
    other way round: the table is not in ascending order. *)
Definition scenarioAShuffled : DB := mkDB [rowA1; rowA3; rowA2] sampleTimeline.

Definition scenarioEShuffled : DB := mkDB [rowE1; rowA3; rowA2] sampleTimeline.

(** A milestone before the others whose end date is not its start date
    plus [duration - 1] days, and a store that holds it. *)
Definition rowInconsistent : Milestone.t :=
  sampleRow 5 0 3 (utcDate 2023 12 1) (utcDate 2023 12 25) None false.

Definition scenarioInconsistent : DB :=
  mkDB [rowInconsistent; rowA1; rowA2] sampleTimeline.

(** Activating a milestone and completing it on 2024-01-10 at once. *)
Definition activateAndComplete : Param.t :=
  Param.mk None None None (Some (Some (utcDate 2024 1 10)))
    (Some MILESTONE_STATUS.ACTIVE) None None None None None None None None.

(* ------------------------------------------------------------------ *)
(** ** Failures: the persistence layer and the block after the commit

    In the source every call of the persistence layer returns a promise
    that may be rejected, and [.catch(next)] (line 256) follows both the
    unit of work and the block after it.  The definitions below are the
    handler again, with these failures. *)

(** Why a promise of the handler is rejected. *)
Inductive Failure : Type :=
| ApiError (httpStatus : Z)
    (* the [apiErr] of lines 134-142, with its [status] *)
| PersistenceError
    (* a promise of the persistence layer was rejected *)
| Thrown.
    (* a call of the block after the unit of work threw *)

Inductive Outcome (A : Type) : Type :=
| Done (a : A)
| Failed (err : Failure).
Arguments Done {A} a.
Arguments Failed {A} err.

(** The store, and how many more calls of the persistence layer resolve
    before one is rejected ([None]: every call resolves). *)
Record World : Type := mkWorld {
  store : DB;
  resolving : option nat
}.

Definition TxF (A : Type) : Type := World -> Outcome A * World.

Definition retF {A} (a : A) : TxF A := fun w => (Done a, w).

Definition failF {A} (err : Failure) : TxF A := fun w => (Failed err, w).

Definition bindF {A B} (m : TxF A) (k : A -> TxF B) : TxF B :=
  fun w =>
    match m w with
    | (Done a, w') => k a w'
    | (Failed err, w') => (Failed err, w')
    end.

Notation "x <~ m ;; k" := (bindF m (fun x => k))
  (at level 61, m at next level, right associativity).

Definition outcomeOf {A} (r : Result A) : Outcome A :=
  match r with
  | Resolved a => Done a
  | Rejected httpStatus => Failed (ApiError httpStatus)
  end.

(** One call of the persistence layer: it is rejected when no call resolves
    any more, and does what [call] does otherwise. *)
Definition persist {A} (call : Tx A) : TxF A :=
  fun w =>
    match resolving w with
    | Some O => (Failed PersistenceError, w)
    | Some (S n) =>
        let (r, db') := call (store w) in (outcomeOf r, mkWorld db' (Some n))
    | None =>
        let (r, db') := call (store w) in (outcomeOf r, mkWorld db' None)
    end.

(** [models.sequelize.transaction]: the transaction is begun, and committed
    when the unit of work has resolved; a rejection at any point rolls the
    store back. *)
Definition transactionF {A} (work : TxF A) : TxF A :=
  fun w =>
    match (_ <~ persist (ret tt) ;;
           a <~ work ;;
           _ <~ persist (ret tt) ;;
           retF a) w with
    | (Done a, w') => (Done a, w')
    | (Failed err, w') => (Failed err, mkWorld (store w) (resolving w'))
    end.

(** Lines 184-222. *)
Definition reindexF (original updated : Milestone.t) : TxF unit :=
  if Milestone.order original =? Milestone.order updated then retF tt
  else
    count <~ persist (Milestone_count (Milestone.timelineId updated)
                                      (Milestone.id updated)
                                      (Milestone.order updated)) ;;
    if count =? 0 then retF tt
    else if Milestone.order original <? Milestone.order updated
    then persist (Milestone_update (-1) (Milestone.timelineId updated)
                                   (Milestone.id updated)
                                   (Milestone.order original + 1)
                                   (Milestone.order updated))
    else persist (Milestone_update 1 (Milestone.timelineId updated)
                                   (Milestone.id updated)
                                   (Milestone.order updated)
                                   (Milestone.order original - 1)).

(** [Promise.all(promises)]: every save is a call of the persistence
    layer, and the promise is rejected as soon as one of them is.  The
    saves that follow a rejected one are left out here: what they write is
    rolled back with the rest by [transactionF]. *)
Fixpoint saveAllF (ms : list Milestone.t) : TxF (list Milestone.t) :=
  match ms with
  | [] => retF []
  | m :: rest =>
      saved <~ persist (milestone_save m) ;;
      others <~ saveAllF rest ;;
      retF (saved :: others)
  end.

(** Lines 25-72. *)
Definition updateComingMilestonesF (originalMilestone updatedMilestone : Milestone.t)
  : TxF Milestone.t :=
  let completionDateChanged :=
    negb (isEqual (Milestone.completionDate originalMilestone)
                  (Milestone.completionDate updatedMilestone)) in
  affectedMilestones <~
    persist (Milestone_findAll (Milestone.timelineId updatedMilestone)
                               (Milestone.order updatedMilestone)) ;;
  let comingMilestones := sortByOrder affectedMilestones in
  let startDate := nextStartDate updatedMilestone in
  updatedMilestones <~
    saveAllF (cascadeLoop (Milestone.updatedBy updatedMilestone)
                          completionDateChanged startDate false comingMilestones) ;;
  retF (popOr updatedMilestones updatedMilestone).

(** Lines 228-235. *)
Definition syncTimelineF (lastTimelineMilestone : Milestone.t) : TxF unit :=
  fun w =>
    let timeline := timeline (store w) in
    if negb (isEqual (Some (Milestone.endDate lastTimelineMilestone))
                     (Timeline.endDate timeline))
    then persist (timeline_save
                    (Timeline.mk (Timeline.id timeline)
                                 (Some (Milestone.endDate lastTimelineMilestone))
                                 (Milestone.updatedBy lastTimelineMilestone))) w
    else retF tt w.

(** Lines 224-238. *)
Definition cascadeF (original updated : Milestone.t) : TxF unit :=
  if cascadeTriggered original updated
  then lastTimelineMilestone <~ updateComingMilestonesF original updated ;;
       syncTimelineF lastTimelineMilestone
  else retF tt.

(** Lines 129-238. *)
Definition workF (now : Date) (req : Request.t) : TxF (Milestone.t * Milestone.t) :=
  let entityToUpdate := entityOfRequest req in
  found <~ persist (Milestone_findOne (Request.timelineId req)
                                      (Request.milestoneId req)) ;;
  match found with
  | None => failF (ApiError 404)
  | Some milestone =>
      if completionBeforeStart milestone entityToUpdate then failF (ApiError 422)
      else
        let original := milestone in
        updated <~ persist (milestone_update milestone
                              (mergeFields (utcMidnight now) milestone
                                           entityToUpdate)) ;;
        _ <~ reindexF original updated ;;
        _ <~ cascadeF original updated ;;
        retF (original, updated)
  end.

(** Lines 128-239. *)
Definition updateF (now : Date) (req : Request.t) : TxF (Milestone.t * Milestone.t) :=
  transactionF (workF now req).

(** The calls the handler makes outside the store, in the order it makes
    them. *)
Inductive Effect : Type :=
| Debug (milestoneId : Z)
    (* req.log.debug('Sending event ...', updated.id) *)
| Publish (original updated : Milestone.t) (correlationId : Z)
    (* pubsub.publish(EVENT.ROUTING_KEY.MILESTONE_UPDATED,
                      { original, updated }, { correlationId: req.id }) *)
| ResJson (reqId : Z) (content : Milestone.t)
    (* res.json(util.wrapResponse(req.id, updated)) *)
| Next (err : Failure).
    (* next(err) *)

(** Which call of the block after the unit of work throws, if any. *)
Inductive PostCommit : Type :=
| AllReturn
| DebugThrows
| PublishThrows
| ResJsonThrows.

(** The block of lines 240-255, followed by [.catch(next)]: the calls made
    until one throws. *)
Definition afterCommit (post : PostCommit) (reqId : Z)
    (original updated : Milestone.t) : list Effect :=
  match post with
  | AllReturn =>
      [Debug (Milestone.id updated); Publish original updated reqId;
       ResJson reqId updated]
  | DebugThrows => [Debug (Milestone.id updated); Next Thrown]
  | PublishThrows =>
      [Debug (Milestone.id updated); Publish original updated reqId;
       Next Thrown]
  | ResJsonThrows =>
      [Debug (Milestone.id updated); Publish original updated reqId;
       ResJson reqId updated; Next Thrown]
  end.

(** The request handler (lines 113-257) for the request [req] of id
    [reqId]: the unit of work, then the block after it, and [next] for a
    rejection of either. *)
Definition handler (post : PostCommit) (now : Date) (reqId : Z)
    (req : Request.t) (w : World) : list Effect * World :=
  match updateF now req w with
  | (Done (original, updated), w') =>
      (afterCommit post reqId original updated, w')
  | (Failed err, w') => ([Next err], w')
  end.

(** Calls of the persistence layer: [k] of them resolve, and what is left
    after them. *)
Definition enough (r : option nat) (k : nat) : bool :=
  match r with
  | None => true
  | Some n => (k <=? n)%nat
  end.

Definition spent (r : option nat) (k : nat) : option nat :=
  match r with
  | None => None
  | Some n => Some (n - k)%nat
  end.

(** The calls of the persistence layer a request makes when none is
    rejected: begin and findOne; then, for an accepted request, the update
    of the milestone, the count and the bulk update of the reindexer, the
    findAll, the saves and the save of the timeline of the cascade, and the
    commit. *)
Definition reindexCalls (original updated : Milestone.t)
    (rows : list Milestone.t) : nat :=
  if Milestone.order original =? Milestone.order updated then 0
  else if slotOccupied updated rows then 2 else 1.

Definition cascadeCalls (original updated : Milestone.t) (db : DB) : nat :=
  if cascadeTriggered original updated
  then
    let saved := savedMilestones original updated (milestones db) in
    1 + List.length saved
    + (if isEqual (Some (Milestone.endDate (popOr saved updated)))
                  (Timeline.endDate (timeline db))
       then 0 else 1)
  else 0.

Definition callsOf (now : Date) (req : Request.t) (db : DB) : nat :=
  match findMilestone req db with
  | None => 2
  | Some m =>
      if completionBeforeStart m (entityOfRequest req) then 2
      else
        let u := resolved now req m in
        let rows1 := writeRow u (milestones db) in
        3 + reindexCalls m u rows1
        + cascadeCalls m u (mkDB (reindexRows m u rows1) (timeline db))
        + 1
  end.

(** From the store [db], [m] makes [k] calls, gives [o] and leaves [db'];
    with fewer calls resolving it is rejected by the persistence layer. *)
Definition runs {A} (m : TxF A) (db : DB) (k : nat) (o : Outcome A) (db' : DB)
  : Prop :=
  forall r,
    (enough r k = true -> m (mkWorld db r) = (o, mkWorld db' (spent r k)))
    /\ (enough r k = false ->
        exists db'', m (mkWorld db r)
                     = (Failed PersistenceError, mkWorld db'' (Some 0%nat))).

(* ------------------------------------------------------------------ *)
(** ** The report handler

    [src/routes/projectReports/getReport.js].  The configuration, the
    project table, the role check, the Looker client and the mock are
    collaborators of the handler: they are the variables of the section. *)
Module Report.

(** What the handler answers. *)
Inductive Reply (MockReply Result : Type) : Type :=
| Mocked (r : MockReply)
    (* return mock(projectId, reportName, req, res) *)
| Send (status : Z) (text : string)
    (* res.status(status).send(text) *)
| Json (status : Z) (reqId : Z) (result : Result).
    (* res.status(status).json(util.wrapResponse(req.id, result)) *)
Arguments Mocked {MockReply Result} r.
Arguments Send {MockReply Result} status text.
Arguments Json {MockReply Result} status reqId result.

Section GetReport.

Context {MockReply Result Err DirectProjectId : Type}.

(** [mock(projectId, reportName, req, res)] *)
Variable mock : Z -> option string -> MockReply.

(** [_.get(project, 'directProjectId')] for the row
    [models.Project.find({ where: { id } })] returns: [None] when there is
    no row or the column is null. *)
Variable directProjectIdOf : Z -> option DirectProjectId.

(** JavaScript truthiness of a [directProjectId]. *)
Variable truthy : DirectProjectId -> bool.

(** [util.hasRoles(req, PROJECT_MEMBER_MANAGER_ROLES)] *)
Variable isManager : bool.

(** The two queries of [LookApi]; [inl err] when the query throws. *)
Variable findProjectRegSubmissions : DirectProjectId -> Err + Result.
Variable findProjectBudget : Z -> bool -> Err + Result.

(** [err.toString()] *)
Variable errToString : Err -> string.

(** The [switch (reportName)]: the query to run, if the name is known. *)
Definition pickReport (projectId : Z) (directProjectId : DirectProjectId)
    (reportName : option string) : option (Err + Result) :=
  match reportName with
  | Some name =>
      if String.eqb name "summary"
      then Some (findProjectRegSubmissions directProjectId)
      else if String.eqb name "projectBudget"
      then Some (findProjectBudget projectId isManager)
      else None
  | None => None
  end.

(** The handler, for [config.lookerConfig.USE_MOCK === true] read as
    [USE_MOCK], [req.id], [Number(req.params.projectId)] and
    [req.query.reportName]. *)
Definition getReport (USE_MOCK : bool) (reqId projectId : Z)
    (reportName : option string) : Reply MockReply Result :=
  if USE_MOCK then Mocked (mock projectId reportName)
  else
    match directProjectIdOf projectId with
    | None => Send 400 "Direct Project not linked"
    | Some directProjectId =>
        if negb (truthy directProjectId)
        then Send 400 "Direct Project not linked"
        else
          match pickReport projectId directProjectId reportName with
          | None => Send 404 "Report not found"
          | Some (inr result) => Json 200 reqId result
          | Some (inl err) => Send 500 (errToString err)
          end
    end.

End GetReport.

(** The project has a truthy [directProjectId]. *)
Definition linked {DirectProjectId : Type}
    (directProjectIdOf : Z -> option DirectProjectId)
    (truthy : DirectProjectId -> bool) (projectId : Z) : bool :=
  match directProjectIdOf projectId with
  | Some d => truthy d
  | None => false
  end.

(** The report names the handler knows. *)
Definition knownReport (reportName : option string) : bool :=
  match reportName with
  | Some name => String.eqb name "summary" || String.eqb name "projectBudget"
  | None => false
  end.

(** The HTTP status of a reply of the handler itself. *)
Definition statusOf {MockReply Result : Type} (r : Reply MockReply Result)
  : option Z :=
  match r with
  | Mocked _ => None
  | Send status _ => Some status
  | Json status _ _ => Some status
  end.

End Report.

(* ------------------------------------------------------------------ *)
(** ** The steps always resolve *)

Lemma saveAll_run ms db :
  saveAll ms db = (Resolved ms, mkDB (writeAll ms (milestones db)) (timeline db)).
Proof.
  revert db. induction ms as [|m rest IH]; intros [rows t]; simpl.
  - reflexivity.
  - unfold bind, milestone_save. simpl. rewrite IH. reflexivity.
Qed.

Lemma updateComingMilestones_run o u db :
  updateComingMilestones o u db =
  (Resolved (popOr (savedMilestones o u (milestones db)) u),
   mkDB (writeAll (savedMilestones o u (milestones db)) (milestones db))
        (timeline db)).
Proof.
  unfold updateComingMilestones, bind, Milestone_findAll.
  rewrite saveAll_run. reflexivity.
Qed.

Lemma count_zero_iff (p : Milestone.t -> bool) rows :
  (Z.of_nat (List.length (filter p rows)) =? 0) = negb (existsb p rows).
Proof.
  induction rows as [|r rest IH]; simpl; [reflexivity|].
  destruct (p r); simpl; [reflexivity|exact IH].
Qed.

Lemma reindex_run o u db :
  reindex o u db = (Resolved tt, mkDB (reindexRows o u (milestones db)) (timeline db)).
Proof.
  destruct db as [rows t].
  assert (Hid : forall f : Milestone.t -> Z,
             (forall r, f r = Milestone.order r) ->
             map (fun r => Milestone.set_order (f r) r) rows = rows).
  { intros f Hf. induction rows as [|r rest IH]; simpl; [reflexivity|].
    rewrite IH, Hf. destruct r; reflexivity. }
  unfold reindex, reindexRows, reindexedOrder. simpl.
  destruct (Milestone.order o =? Milestone.order u) eqn:EMK; simpl.
  { unfold ret. rewrite Hid; auto. }
  unfold bind, Milestone_count. simpl.
  rewrite (count_zero_iff
             (fun r => (Milestone.timelineId r =? Milestone.timelineId u)
                       && negb (Milestone.id r =? Milestone.id u)
                       && (Milestone.order r =? Milestone.order u))).
  fold (isOther u). unfold slotOccupied at 1.
  change (existsb _ rows) with (slotOccupied u rows).
  destruct (slotOccupied u rows) eqn:Eocc; simpl.
  2:{ unfold ret. rewrite Hid; auto. }
  destruct (Milestone.order o <? Milestone.order u) eqn:Elt;
    unfold Milestone_update; simpl; f_equal; f_equal;
    apply map_ext; intros r; unfold isOther;
    destruct ((Milestone.timelineId r =? Milestone.timelineId u)
              && negb (Milestone.id r =? Milestone.id u)); simpl;
    try (destruct r; reflexivity);
    match goal with |- context [if ?c then _ else _] => destruct c end;
    destruct r; reflexivity.
Qed.

Lemma cascade_run o u db :
  cascade o u db = (Resolved tt, cascadeDB o u db).
Proof.
  unfold cascade, cascadeDB.
  destruct (cascadeTriggered o u); [|reflexivity].
  unfold bind. rewrite updateComingMilestones_run.
  unfold syncTimeline, syncedTimeline. cbn [timeline milestones].
  destruct (isEqual (Some (Milestone.endDate
                             (popOr (savedMilestones o u (milestones db)) u)))
                    (Timeline.endDate (timeline db))); reflexivity.
Qed.

(** An accepted request resolves, and leaves [finalDB] behind. *)
Lemma update_run now req db milestone :
  findMilestone req db = Some milestone ->
  completionBeforeStart milestone (entityOfRequest req) = false ->
  update now req db =
  (Resolved (milestone, resolved now req milestone), finalDB now req milestone db).
Proof.
  intros Hfind Hval.
  unfold update, transaction, work, bind, Milestone_findOne.
  unfold findMilestone in Hfind. rewrite Hfind, Hval.
  unfold milestone_update, milestone_save.
  rewrite reindex_run. simpl. rewrite cascade_run. reflexivity.
Qed.

(** Conversely, a request that resolved was accepted. *)
Lemma update_resolved_inv now req db original updated db' :
  update now req db = (Resolved (original, updated), db') ->
  findMilestone req db = Some original
  /\ completionBeforeStart original (entityOfRequest req) = false
  /\ updated = resolved now req original
  /\ db' = finalDB now req original db.
Proof.
  intros H.
  destruct (findMilestone req db) as [milestone|] eqn:Hfind.
  - destruct (completionBeforeStart milestone (entityOfRequest req)) eqn:Hval.
    + unfold update, transaction, work, bind, Milestone_findOne in H.
      unfold findMilestone in Hfind. rewrite Hfind, Hval in H.
      unfold reject in H. discriminate H.
    + rewrite (update_run now req db milestone Hfind Hval) in H.
      inversion H; subst. auto.
  - unfold update, transaction, work, bind, Milestone_findOne in H.
    unfold findMilestone in Hfind. rewrite Hfind in H.
    unfold reject in H. discriminate H.
Qed.

(* ------------------------------------------------------------------ *)
(** ** Saving rows *)

Lemma NoDup_map_inj {A B} (f : A -> B) (l : list A) x y :
  NoDup (map f l) -> In x l -> In y l -> f x = f y -> x = y.
Proof.
  induction l as [|a l IH]; simpl; intros Hnd Hx Hy Hf; [contradiction|].
  inversion Hnd as [|? ? Hnotin Hnd']; subst.
  destruct Hx as [->|Hx], Hy as [->|Hy]; auto.
  - exfalso. apply Hnotin. rewrite Hf. now apply in_map.
  - exfalso. apply Hnotin. rewrite <- Hf. now apply in_map.
Qed.

Lemma map_id_writeRow m rows :
  map Milestone.id (writeRow m rows) = map Milestone.id rows.
Proof.
  unfold writeRow. rewrite map_map. apply map_ext. intros r.
  destruct (Z.eqb_spec (Milestone.id r) (Milestone.id m)); congruence.
Qed.

Lemma map_id_writeAll ms rows :
  map Milestone.id (writeAll ms rows) = map Milestone.id rows.
Proof.
  revert rows. induction ms as [|m ms IH]; intros rows; simpl; [reflexivity|].
  unfold writeAll in *. simpl. rewrite IH. apply map_id_writeRow.
Qed.

Lemma In_writeRow r m rows :
  In r (writeRow m rows) ->
  r = m \/ (In r rows /\ Milestone.id r <> Milestone.id m).
Proof.
  unfold writeRow. rewrite in_map_iff. intros [x [Hx Hin]].
  destruct (Z.eqb_spec (Milestone.id x) (Milestone.id m)); subst; auto.
Qed.

Lemma In_writeRow_same m rows :
  In (Milestone.id m) (map Milestone.id rows) -> In m (writeRow m rows).
Proof.
  rewrite in_map_iff. intros [x [Hx Hin]].
  unfold writeRow. apply in_map_iff. exists x. split; [|exact Hin].
  rewrite Hx, Z.eqb_refl. reflexivity.
Qed.

Lemma In_writeRow_other r m rows :
  In r rows -> Milestone.id r <> Milestone.id m -> In r (writeRow m rows).
Proof.
  intros Hin Hne. unfold writeRow. apply in_map_iff. exists r.
  split; [|exact Hin].
  destruct (Z.eqb_spec (Milestone.id r) (Milestone.id m)); congruence.
Qed.

(** A row of the store after the saves is a saved milestone or a row no
    save has touched. *)
Lemma In_writeAll r ms rows :
  In r (writeAll ms rows) ->
  In r ms \/ (In r rows /\ forall m, In m ms -> Milestone.id m <> Milestone.id r).
Proof.
  revert rows. induction ms as [|m ms IH]; intros rows Hin.
  - right. split; [exact Hin|]. intros m [].
  - unfold writeAll in Hin. simpl in Hin. apply IH in Hin.
    destruct Hin as [Hin|[Hin Hids]]; [left; now right|].
    apply In_writeRow in Hin. destruct Hin as [->|[Hin Hne]]; [left; now left|].
    right. split; [exact Hin|].
    intros m' [<-|Hm']; [congruence|auto].
Qed.

Lemma In_writeAll_keep r ms rows :
  In r rows -> (forall m, In m ms -> Milestone.id m <> Milestone.id r) ->
  In r (writeAll ms rows).
Proof.
  revert rows. induction ms as [|m ms IH]; intros rows Hin Hids; [exact Hin|].
  unfold writeAll. simpl. apply IH.
  - apply In_writeRow_other; [exact Hin|].
    intros E. apply (Hids m); [now left|congruence].
  - intros m' Hm'. apply Hids. now right.
Qed.

(** A saved milestone is in the store after the saves, as it was saved. *)
Lemma In_writeAll_saved m ms rows :
  NoDup (map Milestone.id ms) -> In m ms ->
  In (Milestone.id m) (map Milestone.id rows) ->
  In m (writeAll ms rows).
Proof.
  revert rows. induction ms as [|m0 ms IH]; intros rows Hnd Hin Hid; [contradiction|].
  simpl in Hnd. inversion Hnd as [|? ? Hnotin Hnd']; subst.
  unfold writeAll. simpl. destruct Hin as [->|Hin].
  - apply In_writeAll_keep; [now apply In_writeRow_same|].
    intros m' Hm' E. apply Hnotin. rewrite <- E. now apply in_map.
  - apply IH; auto. now rewrite map_id_writeRow.
Qed.

Lemma map_key_id (l : list Milestone.t) :
  map Milestone.id l = map (fun k => fst (fst k)) (map key l).
Proof. rewrite map_map. reflexivity. Qed.

Lemma map_key_writeRow m rows :
  NoDup (map Milestone.id rows) -> In (key m) (map key rows) ->
  map key (writeRow m rows) = map key rows.
Proof.
  intros Hnd Hin. unfold writeRow. rewrite map_map. apply map_ext_in.
  intros r Hr.
  destruct (Z.eqb_spec (Milestone.id r) (Milestone.id m)) as [E|]; [|reflexivity].
  apply in_map_iff in Hin. destruct Hin as [s [Hs Hsin]].
  assert (s = r).
  { apply (NoDup_map_inj Milestone.id rows); auto.
    unfold key in Hs. congruence. }
  subst s. auto.
Qed.

(** Saving milestones that kept their id, timeline and order leaves these
    three columns of every row as they were. *)
Lemma map_key_writeAll ms rows :
  NoDup (map Milestone.id rows) ->
  (forall m, In m ms -> In (key m) (map key rows)) ->
  map key (writeAll ms rows) = map key rows.
Proof.
  revert rows. induction ms as [|m ms IH]; intros rows Hnd Hin; [reflexivity|].
  unfold writeAll. simpl.
  assert (E : map key (writeRow m rows) = map key rows).
  { apply map_key_writeRow; auto. apply Hin. now left. }
  fold (writeAll ms (writeRow m rows)). rewrite IH.
  - exact E.
  - now rewrite map_id_writeRow.
  - intros m' Hm'. rewrite E. apply Hin. now right.
Qed.

(* ------------------------------------------------------------------ *)
(** ** Sorting by order *)

Lemma insertByOrder_perm m l : Permutation (insertByOrder m l) (m :: l).
Proof.
  induction l as [|x l IH]; simpl; [reflexivity|].
  destruct (Milestone.order m <=? Milestone.order x); [reflexivity|].
  rewrite IH. apply perm_swap.
Qed.

Lemma sortByOrder_perm l : Permutation (sortByOrder l) l.
Proof.
  induction l as [|x l IH]; simpl; [reflexivity|].
  rewrite insertByOrder_perm. now constructor.
Qed.

Lemma insertByOrder_sorted m l :
  StronglySorted orderLe l -> StronglySorted orderLe (insertByOrder m l).
Proof.
  induction 1 as [|x l Hs IH Hall]; simpl.
  - repeat constructor.
  - destruct (Z.leb_spec (Milestone.order m) (Milestone.order x)).
    + constructor; [now constructor|].
      constructor; [assumption|].
      eapply Forall_impl; [|exact Hall]. unfold orderLe. intros; lia.
    + constructor; [exact IH|].
      rewrite Forall_forall. intros y Hy.
      apply (Permutation_in _ (insertByOrder_perm m l)) in Hy.
      destruct Hy as [<-|Hy]; [unfold orderLe; lia|].
      rewrite Forall_forall in Hall. auto.
Qed.

Lemma sortByOrder_sorted l : StronglySorted orderLe (sortByOrder l).
Proof.
  induction l as [|x l IH]; simpl; [constructor|].
  now apply insertByOrder_sorted.
Qed.

(** The last element of a list sorted by order has the greatest order. *)
Lemma last_greatest (l : list Z) d :
  StronglySorted Z.le l -> forall x, In x l -> x <= last l d.
Proof.
  induction 1 as [|a l Hs IH Hall]; intros x Hin; [contradiction|].
  destruct l as [|b l'].
  - destruct Hin as [->|[]]. simpl. lia.
  - change (last (a :: b :: l') d) with (last (b :: l') d).
    destruct Hin as [->|Hin]; [|auto].
    inversion Hall as [|? ? Hab Hall']; subst.
    specialize (IH b (or_introl eq_refl)). lia.
Qed.

(* ------------------------------------------------------------------ *)
(** ** The cascade loop *)

Ltac step_cases m :=
  unfold cascadeStep, isEqualDate; destruct m; cbn;
  repeat match goal with
         | |- context [negb (?a =? ?b)] =>
             is_var a; destruct (Z.eqb_spec a b); cbn
         end;
  repeat match goal with
         | |- context [if ?c then _ else _] => destruct c; cbn
         end.

Lemma cascadeStep_key u c s f m : key (fst (cascadeStep u c s f m)) = key m.
Proof. step_cases m; reflexivity. Qed.

Lemma cascadeStep_hidden u c s f m :
  Milestone.hidden (fst (cascadeStep u c s f m)) = Milestone.hidden m.
Proof. step_cases m; reflexivity. Qed.

Lemma cascadeStep_duration u c s f m :
  Milestone.duration (fst (cascadeStep u c s f m)) = Milestone.duration m.
Proof. step_cases m; reflexivity. Qed.

Lemma cascadeStep_completionDate u c s f m :
  Milestone.completionDate (fst (cascadeStep u c s f m))
  = Milestone.completionDate m.
Proof. step_cases m; reflexivity. Qed.

Lemma cascadeStep_startDate u c s f m :
  Milestone.startDate (fst (cascadeStep u c s f m)) = s.
Proof. step_cases m; congruence. Qed.

Lemma cascadeStep_endDate u c s f m :
  Milestone.endDate (fst (cascadeStep u c s f m))
  = addDays s (Milestone.duration m - 1).
Proof. step_cases m; congruence. Qed.

Lemma cascadeStep_status u c s f m :
  Milestone.status (fst (cascadeStep u c s f m))
  = if negb f && c && negb (Milestone.hidden m)
    then MILESTONE_STATUS.ACTIVE else Milestone.status m.
Proof. destruct f, c; step_cases m; reflexivity. Qed.

Lemma cascadeStep_found u c s f m :
  snd (cascadeStep u c s f m) = f || (c && negb (Milestone.hidden m)).
Proof. destruct f, c; step_cases m; reflexivity. Qed.

Lemma cascadeLoop_cons u c s f m rest :
  cascadeLoop u c s f (m :: rest)
  = fst (cascadeStep u c s f m)
    :: cascadeLoop u c (nextStartDate (fst (cascadeStep u c s f m)))
                   (snd (cascadeStep u c s f m)) rest.
Proof. simpl. destruct (cascadeStep u c s f m). reflexivity. Qed.

Lemma cascadeLoop_key u c s f l :
  map key (cascadeLoop u c s f l) = map key l.
Proof.
  revert s f. induction l as [|m rest IH]; intros s f; [reflexivity|].
  rewrite cascadeLoop_cons. simpl. now rewrite cascadeStep_key, IH.
Qed.

Lemma cascadeLoop_hidden u c s f l :
  map Milestone.hidden (cascadeLoop u c s f l) = map Milestone.hidden l.
Proof.
  revert s f. induction l as [|m rest IH]; intros s f; [reflexivity|].
  rewrite cascadeLoop_cons. simpl. now rewrite cascadeStep_hidden, IH.
Qed.

Lemma cascadeLoop_duration u c s f l :
  map Milestone.duration (cascadeLoop u c s f l) = map Milestone.duration l.
Proof.
  revert s f. induction l as [|m rest IH]; intros s f; [reflexivity|].
  rewrite cascadeLoop_cons. simpl. now rewrite cascadeStep_duration, IH.
Qed.

Lemma cascadeLoop_completionDate u c s f l :
  map Milestone.completionDate (cascadeLoop u c s f l)
  = map Milestone.completionDate l.
Proof.
  revert s f. induction l as [|m rest IH]; intros s f; [reflexivity|].
  rewrite cascadeLoop_cons. simpl. now rewrite cascadeStep_completionDate, IH.
Qed.

(** Every saved milestone, hidden or not, starts at the cursor and ends
    [duration - 1] days later. *)
Lemma cascadeLoop_chained u c s f l : chained s (cascadeLoop u c s f l).
Proof.
  revert s f. induction l as [|m rest IH]; intros s f; [exact I|].
  rewrite cascadeLoop_cons. simpl.
  rewrite cascadeStep_startDate, cascadeStep_endDate, cascadeStep_duration.
  auto.
Qed.

(** Once a milestone has been activated, or when the completion date did
    not change, the loop leaves every status alone. *)
Lemma cascadeLoop_status_kept u c s f l :
  c = false \/ f = true ->
  map Milestone.status (cascadeLoop u c s f l) = map Milestone.status l.
Proof.
  revert s f. induction l as [|m rest IH]; intros s f H; [reflexivity|].
  rewrite cascadeLoop_cons. simpl. rewrite cascadeStep_status, IH.
  - destruct H as [-> | ->]; [now rewrite andb_false_r|reflexivity].
  - rewrite cascadeStep_found. destruct H as [-> | ->]; auto.
Qed.

(** When the completion date changed, the loop activates the first
    milestone that is not hidden, and only that one. *)
Lemma cascadeLoop_status_activated u s l :
  map Milestone.status (cascadeLoop u true s false l) = expectedStatuses l.
Proof.
  revert s. induction l as [|m rest IH]; intros s; [reflexivity|].
  rewrite cascadeLoop_cons. simpl.
  rewrite cascadeStep_status, cascadeStep_found. simpl.
  destruct (Milestone.hidden m); simpl.
  - now rewrite IH.
  - now rewrite cascadeLoop_status_kept by auto.
Qed.

(** Reading [expectedStatuses] at the first visible position. *)
Lemma expectedStatuses_first_visible l out pre m post :
  map Milestone.hidden out = map Milestone.hidden l ->
  map Milestone.status out = expectedStatuses l ->
  out = pre ++ m :: post ->
  Forall isHidden pre -> Milestone.hidden m = false ->
  Milestone.status m = MILESTONE_STATUS.ACTIVE.
Proof.
  revert l out. induction pre as [|p pre IH]; intros l out Hh Hs -> Hpre Hm.
  - destruct l as [|x l]; [discriminate|]. simpl in *.
    injection Hh as Hh _. rewrite <- Hh, Hm in Hs. now injection Hs.
  - destruct l as [|x l]; [discriminate|]. simpl in *.
    inversion Hpre as [|? ? Hp Hpre']; subst.
    injection Hh as Hh Hh'. unfold isHidden in Hp. rewrite <- Hh, Hp in Hs.
    injection Hs as _ Hs. eapply IH; eauto.
Qed.

(* ------------------------------------------------------------------ *)
(** ** The field merge *)

(** Case analysis on the tests of the goal, innermost first. *)
Ltac destruct_ifs :=
  repeat match goal with
         | |- context [if ?c then _ else _] =>
             lazymatch c with
             | context [if _ then _ else _] => fail
             | _ => destruct c eqn:?; cbn
             end
         end;
  try reflexivity; try congruence.

Ltac merge_cases := unfold mergeFields; destruct_ifs.

Lemma mergeFields_timelineId today m e :
  Entity.timelineId (mergeFields today m e) = Entity.timelineId e.
Proof. merge_cases. Qed.

Lemma mergeFields_updatedBy today m e :
  Entity.updatedBy (mergeFields today m e) = Entity.updatedBy e.
Proof. merge_cases. Qed.

Lemma mergeFields_order today m e :
  Entity.order (mergeFields today m e) = Entity.order e.
Proof. merge_cases. Qed.

Lemma mergeFields_duration today m e :
  Entity.duration (mergeFields today m e) = Entity.duration e.
Proof. merge_cases. Qed.

Lemma mergeFields_hidden today m e :
  Entity.hidden (mergeFields today m e) = Entity.hidden e.
Proof. merge_cases. Qed.

(** The end date is recomputed, from the stored start date, exactly when the
    duration changed. *)
Lemma mergeFields_endDate today m e :
  Entity.endDate (mergeFields today m e)
  = if durationChanged m e
    then Some (addDays (Milestone.startDate m) (orElse (Entity.duration e) 0 - 1))
    else Entity.endDate e.
Proof.
  unfold mergeFields. destruct (durationChanged m e); cbn;
    destruct_ifs.
Qed.

Lemma mergeFields_startDate today m e :
  Entity.startDate (mergeFields today m e)
  = if requestedTransition m e MILESTONE_STATUS.ACTIVE
    then Some today else Entity.startDate e.
Proof.
  unfold mergeFields, requestedTransition.
  unfold durationChanged, statusChanged, completionDateChanged.
  destruct e as [? ? [d|] ? ? [[c|]|] [s|] ? ? ? ? ? ? ? ? ? ?]; cbn;
    destruct_ifs.
Qed.

Lemma mergeFields_completionDate today m e :
  Entity.completionDate (mergeFields today m e)
  = if requestedTransition m e MILESTONE_STATUS.COMPLETED
    then Some (Some (match Entity.completionDate e with
                     | Some (Some c) => c
                     | _ => today
                     end))
    else Entity.completionDate e.
Proof.
  unfold mergeFields, requestedTransition.
  unfold durationChanged, statusChanged, completionDateChanged.
  destruct e as [? ? [d|] ? ? [[c|]|] [s|] ? ? ? ? ? ? ? ? ? ?]; cbn;
    destruct_ifs.
Qed.

Lemma mergeFields_status today m e :
  Entity.status (mergeFields today m e)
  = if negb (statusChanged m e) && completionDateChanged m e
    then Some MILESTONE_STATUS.COMPLETED else Entity.status e.
Proof.
  unfold mergeFields.
  unfold durationChanged, statusChanged, completionDateChanged.
  destruct e as [? ? [d|] ? ? [[c|]|] [s|] ? ? ? ? ? ? ? ? ? ?]; cbn;
    destruct_ifs.
Qed.

(** The columns of the milestone the handler persists. *)
Lemma resolved_id now req m : Milestone.id (resolved now req m) = Milestone.id m.
Proof. reflexivity. Qed.

Lemma resolved_timelineId now req m :
  Milestone.timelineId (resolved now req m) = Request.timelineId req.
Proof. unfold resolved. cbn. now rewrite mergeFields_timelineId. Qed.

Lemma resolved_updatedBy now req m :
  Milestone.updatedBy (resolved now req m) = Request.userId req.
Proof. unfold resolved. cbn. now rewrite mergeFields_updatedBy. Qed.

Lemma resolved_order now req m :
  Milestone.order (resolved now req m)
  = orElse (Param.order (Request.param req)) (Milestone.order m).
Proof. unfold resolved. cbn. now rewrite mergeFields_order. Qed.

Lemma resolved_duration now req m :
  Milestone.duration (resolved now req m)
  = orElse (Param.duration (Request.param req)) (Milestone.duration m).
Proof. unfold resolved. cbn. now rewrite mergeFields_duration. Qed.

Lemma resolved_endDate now req m :
  Milestone.endDate (resolved now req m)
  = if durationChanged m (entityOfRequest req)
    then addDays (Milestone.startDate m)
                 (orElse (Param.duration (Request.param req)) 0 - 1)
    else Milestone.endDate m.
Proof.
  unfold resolved. cbn. rewrite mergeFields_endDate.
  destruct (durationChanged m (entityOfRequest req)); reflexivity.
Qed.

Lemma resolved_startDate now req m :
  Milestone.startDate (resolved now req m)
  = if requestedTransition m (entityOfRequest req) MILESTONE_STATUS.ACTIVE
    then utcMidnight now else Milestone.startDate m.
Proof.
  unfold resolved. cbn. rewrite mergeFields_startDate.
  destruct (requestedTransition m (entityOfRequest req) MILESTONE_STATUS.ACTIVE);
    reflexivity.
Qed.

Lemma resolved_completionDate now req m :
  Milestone.completionDate (resolved now req m)
  = if requestedTransition m (entityOfRequest req) MILESTONE_STATUS.COMPLETED
    then Some (match Param.completionDate (Request.param req) with
               | Some (Some c) => c
               | _ => utcMidnight now
               end)
    else orElse (Param.completionDate (Request.param req))
                (Milestone.completionDate m).
Proof.
  unfold resolved. cbn. rewrite mergeFields_completionDate.
  destruct (requestedTransition m (entityOfRequest req) MILESTONE_STATUS.COMPLETED);
    reflexivity.
Qed.

Lemma resolved_status now req m :
  Milestone.status (resolved now req m)
  = if negb (statusChanged m (entityOfRequest req))
       && completionDateChanged m (entityOfRequest req)
    then MILESTONE_STATUS.COMPLETED
    else orElse (Param.status (Request.param req)) (Milestone.status m).
Proof.
  unfold resolved. cbn. rewrite mergeFields_status.
  destruct (negb (statusChanged m (entityOfRequest req))
            && completionDateChanged m (entityOfRequest req)); reflexivity.
Qed.

(* ------------------------------------------------------------------ *)
(** ** The rows the cascade reads and writes *)

Lemma set_order_same r : Milestone.set_order (Milestone.order r) r = r.
Proof. destruct r; reflexivity. Qed.

Lemma reindexRows_same_order o u rows :
  Milestone.order o = Milestone.order u -> reindexRows o u rows = rows.
Proof.
  intros E. unfold reindexRows, reindexedOrder. rewrite E, Z.eqb_refl. simpl.
  induction rows as [|r rows IH]; simpl; [reflexivity|].
  now rewrite set_order_same, IH.
Qed.

Lemma reindexRows_id o u rows :
  map Milestone.id (reindexRows o u rows) = map Milestone.id rows.
Proof. unfold reindexRows. rewrite map_map. apply map_ext. now intros []. Qed.

Lemma isOther_self u : isOther u u = false.
Proof. unfold isOther. now rewrite !Z.eqb_refl. Qed.

(** The reindexer never touches the edited milestone. *)
Lemma In_reindexRows_self o u rows :
  In u rows -> In u (reindexRows o u rows).
Proof.
  intros Hin. unfold reindexRows. apply in_map_iff. exists u.
  split; [|exact Hin].
  unfold reindexedOrder. rewrite isOther_self, andb_false_r.
  apply set_order_same.
Qed.

Lemma isEqual_true a b : isEqual a b = true <-> a = b.
Proof.
  destruct a as [x|], b as [y|]; simpl; split; intros H;
    try discriminate; try reflexivity.
  - apply Z.eqb_eq in H. now subst.
  - injection H as ->. apply Z.eqb_refl.
Qed.

Lemma syncedTimeline_endDate l t :
  Timeline.endDate (syncedTimeline l t) = Some (Milestone.endDate l).
Proof.
  unfold syncedTimeline.
  destruct (isEqual (Some (Milestone.endDate l)) (Timeline.endDate t)) eqn:E.
  - apply isEqual_true in E. now rewrite E.
  - reflexivity.
Qed.

Lemma In_comingMilestones u rows x :
  In x (comingMilestones u rows) <-> In x rows /\ isDownstream u x = true.
Proof.
  unfold comingMilestones. rewrite <- filter_In. split; intros H.
  - eapply Permutation_in; [apply sortByOrder_perm|exact H].
  - eapply Permutation_in; [symmetry; apply sortByOrder_perm|exact H].
Qed.

Lemma NoDup_map_filter {A B} (f : A -> B) (p : A -> bool) l :
  NoDup (map f l) -> NoDup (map f (filter p l)).
Proof.
  induction l as [|a l IH]; simpl; intros H; [constructor|].
  inversion H as [|? ? Hnotin Hnd]; subst.
  destruct (p a); simpl; auto. constructor; auto.
  intros Hin. apply Hnotin. apply in_map_iff in Hin.
  destruct Hin as [x [Hx Hin]]. apply filter_In in Hin.
  rewrite <- Hx. apply in_map. tauto.
Qed.

Lemma comingMilestones_NoDup u rows :
  NoDup (map Milestone.id rows) ->
  NoDup (map Milestone.id (comingMilestones u rows)).
Proof.
  intros H. unfold comingMilestones.
  eapply Permutation_NoDup.
  - apply Permutation_map. symmetry. apply sortByOrder_perm.
  - now apply NoDup_map_filter.
Qed.

Lemma savedMilestones_key o u rows :
  map key (savedMilestones o u rows) = map key (comingMilestones u rows).
Proof. apply cascadeLoop_key. Qed.

Lemma savedMilestones_id o u rows :
  map Milestone.id (savedMilestones o u rows)
  = map Milestone.id (comingMilestones u rows).
Proof. now rewrite !map_key_id, savedMilestones_key. Qed.

(** A saved milestone is the new version of a downstream row. *)
Lemma savedMilestones_source o u rows m :
  In m (savedMilestones o u rows) ->
  exists x, In x rows /\ isDownstream u x = true /\ key x = key m.
Proof.
  intros Hin. apply (in_map key) in Hin. rewrite savedMilestones_key in Hin.
  apply in_map_iff in Hin. destruct Hin as [x [Hk Hx]].
  apply In_comingMilestones in Hx. exists x. tauto.
Qed.

(** The cascade writes neither the id, nor the timeline, nor the order of
    any row. *)
Lemma cascade_keeps_keys o u rows :
  NoDup (map Milestone.id rows) ->
  map key (writeAll (savedMilestones o u rows) rows) = map key rows.
Proof.
  intros Hnd. apply map_key_writeAll; [exact Hnd|].
  intros m Hm. destruct (savedMilestones_source _ _ _ _ Hm) as [x [Hx [_ Hk]]].
  rewrite <- Hk. now apply in_map.
Qed.

Lemma sorted_orders l :
  StronglySorted orderLe l -> StronglySorted Z.le (map Milestone.order l).
Proof.
  induction 1 as [|a l Hs IH Hall]; simpl; constructor; auto.
  rewrite Forall_forall in *. intros o Ho. apply in_map_iff in Ho.
  destruct Ho as [x [<- Hx]]. now apply Hall.
Qed.

Lemma last_map_order l d :
  Milestone.order (last l d) = last (map Milestone.order l) (Milestone.order d).
Proof.
  induction l as [|a l IH]; [reflexivity|].
  destruct l; [reflexivity|]. exact IH.
Qed.

Lemma In_last_nonempty (l : list Milestone.t) d : l <> [] -> In (last l d) l.
Proof.
  induction l as [|a l IH]; intros H; [congruence|].
  destruct l as [|b l']; [now left|].
  right. apply IH. discriminate.
Qed.

(** The last saved milestone has the greatest order among the saved ones. *)
Lemma savedMilestones_last_greatest o u rows m :
  In m (savedMilestones o u rows) ->
  Milestone.order m <= Milestone.order (popOr (savedMilestones o u rows) u).
Proof.
  intros Hm. unfold popOr. rewrite last_map_order.
  apply last_greatest; [|now apply in_map].
  assert (E : map Milestone.order (savedMilestones o u rows)
              = map Milestone.order (comingMilestones u rows)).
  { pose proof (savedMilestones_key o u rows) as K.
    apply (f_equal (map snd)) in K. rewrite !map_map in K. exact K. }
  rewrite E. apply sorted_orders. apply sortByOrder_sorted.
Qed.

(** The edited milestone is in the store once persisted and reindexed. *)
Lemma findMilestone_some req db m :
  findMilestone req db = Some m ->
  In m (milestones db)
  /\ Milestone.timelineId m = Request.timelineId req
  /\ Milestone.id m = Request.milestoneId req.
Proof.
  unfold findMilestone. intros H. apply find_some in H.
  destruct H as [Hin H]. apply andb_prop in H. destruct H as [H1 H2].
  apply Z.eqb_eq in H1, H2. auto.
Qed.

Lemma updated_in_store now req db m :
  findMilestone req db = Some m ->
  In (resolved now req m)
     (reindexRows m (resolved now req m)
                  (writeRow (resolved now req m) (milestones db))).
Proof.
  intros H. apply findMilestone_some in H. destruct H as [Hin _].
  apply In_reindexRows_self, In_writeRow_same.
  rewrite resolved_id. now apply in_map.
Qed.

Lemma store_ids_kept now req db m :
  map Milestone.id
      (reindexRows m (resolved now req m)
                   (writeRow (resolved now req m) (milestones db)))
  = map Milestone.id (milestones db).
Proof. now rewrite reindexRows_id, map_id_writeRow. Qed.

Lemma isDownstream_spec u r :
  isDownstream u r = true <->
  Milestone.timelineId r = Milestone.timelineId u
  /\ Milestone.order u < Milestone.order r.
Proof.
  unfold isDownstream. rewrite andb_true_iff, Z.eqb_eq, Z.ltb_lt. tauto.
Qed.

(** A saved milestone is in the store after the cascade. *)
Lemma saved_in_store o u rows m :
  NoDup (map Milestone.id rows) ->
  In m (savedMilestones o u rows) ->
  In m (writeAll (savedMilestones o u rows) rows).
Proof.
  intros Hnd Hm. apply In_writeAll_saved; auto.
  - rewrite savedMilestones_id. now apply comingMilestones_NoDup.
  - destruct (savedMilestones_source _ _ _ _ Hm) as [x [Hx [_ Hk]]].
    replace (Milestone.id m) with (Milestone.id x)
      by (unfold key in Hk; congruence).
    now apply in_map.
Qed.

(** A row of the timeline the cascade did not save is not downstream. *)
Lemma unsaved_not_downstream o u rows r :
  In r rows ->
  (forall m, In m (savedMilestones o u rows) -> Milestone.id m <> Milestone.id r) ->
  Milestone.timelineId r = Milestone.timelineId u ->
  Milestone.order r <= Milestone.order u.
Proof.
  intros Hr Hfresh Ht.
  destruct (Z.le_gt_cases (Milestone.order r) (Milestone.order u)) as [|Hgt];
    [assumption|exfalso].
  assert (Hc : In r (comingMilestones u rows)).
  { apply In_comingMilestones. split; [exact Hr|].
    apply isDownstream_spec. split; [exact Ht|lia]. }
  apply (in_map Milestone.id) in Hc.
  rewrite <- (savedMilestones_id o) in Hc. apply in_map_iff in Hc.
  destruct Hc as [m [Hm Hin]]. exact (Hfresh m Hin Hm).
Qed.

(** The last milestone of the cascade is a milestone of the final store
    with the greatest order of its timeline. *)
Lemma cascade_last_greatest o u rows :
  NoDup (map Milestone.id rows) -> In u rows ->
  In (popOr (savedMilestones o u rows) u)
     (writeAll (savedMilestones o u rows) rows)
  /\ Milestone.timelineId (popOr (savedMilestones o u rows) u)
     = Milestone.timelineId u
  /\ (forall r, In r (writeAll (savedMilestones o u rows) rows) ->
                Milestone.timelineId r = Milestone.timelineId u ->
                Milestone.order r
                <= Milestone.order (popOr (savedMilestones o u rows) u))
  /\ ((forall r, In r (writeAll (savedMilestones o u rows) rows) ->
                 Milestone.timelineId r = Milestone.timelineId u ->
                 Milestone.order r <= Milestone.order u) ->
      popOr (savedMilestones o u rows) u = u).
Proof.
  intros Hnd Hu.
  pose proof (saved_in_store o u rows) as Hwritten.
  pose proof (savedMilestones_source o u rows) as Hsrc.
  pose proof (savedMilestones_last_greatest o u rows) as Hmax.
  pose proof (unsaved_not_downstream o u rows) as Hrest.
  remember (savedMilestones o u rows) as saved eqn:Es.
  destruct saved as [|s0 saved'].
  - (* no downstream milestone: the store is left as it is *)
    simpl. repeat split; auto.
  - set (lastM := popOr (s0 :: saved') u) in *.
    assert (Hlast : In lastM (s0 :: saved')).
    { apply In_last_nonempty. discriminate. }
    destruct (Hsrc lastM Hlast) as [x [Hx [Hdown Hk]]].
    apply isDownstream_spec in Hdown. destruct Hdown as [Hxt Hxo].
    assert (Hlt : Milestone.timelineId lastM = Milestone.timelineId u)
      by (unfold key in Hk; congruence).
    assert (Hlo : Milestone.order u < Milestone.order lastM).
    { replace (Milestone.order lastM) with (Milestone.order x)
        by (unfold key in Hk; congruence). exact Hxo. }
    split; [now apply Hwritten|]. split; [exact Hlt|]. split.
    + intros r Hr Ht. apply In_writeAll in Hr.
      destruct Hr as [Hr|[Hr Hfresh]]; [now apply Hmax|].
      specialize (Hrest r Hr Hfresh Ht). lia.
    + intros Hnone. specialize (Hnone lastM (Hwritten lastM Hnd Hlast) Hlt). lia.
Qed.


(* ------------------------------------------------------------------ *)
(** ** The rows the reindexer writes *)

Lemma isOther_spec u r :
  isOther u r = true <->
  Milestone.timelineId r = Milestone.timelineId u
  /\ Milestone.id r <> Milestone.id u.
Proof.
  unfold isOther. rewrite andb_true_iff, negb_true_iff, Z.eqb_eq, Z.eqb_neq.
  tauto.
Qed.

Lemma slotOccupied_writeRow u rows :
  slotOccupied u (writeRow u rows) = slotOccupied u rows.
Proof.
  unfold slotOccupied, writeRow. induction rows as [|r rows IH]; [reflexivity|].
  simpl. rewrite IH. f_equal.
  destruct (Z.eqb_spec (Milestone.id r) (Milestone.id u)) as [E|E].
  - rewrite isOther_self. unfold isOther. rewrite E, !Z.eqb_refl.
    now destruct (Milestone.timelineId r =? Milestone.timelineId u).
  - reflexivity.
Qed.

Lemma slotOccupied_false u rows r :
  slotOccupied u rows = false -> In r rows -> isOther u r = true ->
  Milestone.order r <> Milestone.order u.
Proof.
  unfold slotOccupied. intros Hocc Hin Hoth Heq.
  assert (H : existsb (fun r => isOther u r
                         && (Milestone.order r =? Milestone.order u)) rows = true).
  { apply existsb_exists. exists r. split; [exact Hin|].
    rewrite Hoth. simpl. now apply Z.eqb_eq. }
  congruence.
Qed.

Lemma persisted_rows o u rows :
  reindexRows o u (writeRow u rows)
  = map (persistedRow o u (slotOccupied u rows)) rows.
Proof.
  unfold reindexRows. rewrite slotOccupied_writeRow.
  unfold writeRow. rewrite map_map. apply map_ext. intros r.
  unfold persistedRow.
  destruct (Z.eqb_spec (Milestone.id r) (Milestone.id u)); [|reflexivity].
  unfold reindexedOrder. rewrite isOther_self, andb_false_r.
  apply set_order_same.
Qed.

Lemma key_eq a b :
  key a = key b ->
  Milestone.id a = Milestone.id b
  /\ Milestone.timelineId a = Milestone.timelineId b
  /\ Milestone.order a = Milestone.order b.
Proof. unfold key. intros H. injection H as H1 H2 H3. auto. Qed.

Lemma Forall2_of_map_eq {A B C} (f : A -> C) (g : B -> C) l l' :
  map f l = map g l' -> Forall2 (fun a b => f a = g b) l l'.
Proof.
  revert l'. induction l as [|a l IH]; intros [|b l'] H; try discriminate.
  - constructor.
  - simpl in H. injection H as H1 H2. constructor; auto.
Qed.

(** The keys of the store an accepted request leaves behind. *)
Lemma final_keys now req db m :
  NoDup (map Milestone.id (milestones db)) ->
  map key (milestones (finalDB now req m db))
  = map key (map (persistedRow m (resolved now req m)
                    (slotOccupied (resolved now req m) (milestones db)))
                 (milestones db)).
Proof.
  intros Hnd. unfold finalDB, cascadeDB.
  set (u := resolved now req m).
  set (rows := reindexRows m u (writeRow u (milestones db))).
  assert (E : map key rows
              = map key (map (persistedRow m u (slotOccupied u (milestones db)))
                             (milestones db))).
  { unfold rows. now rewrite persisted_rows. }
  destruct (cascadeTriggered m u); cbn [milestones]; [|exact E].
  rewrite cascade_keeps_keys; [exact E|].
  unfold rows, u. now rewrite store_ids_kept.
Qed.

Lemma Forall2_map_r {A B} (R : A -> B -> Prop) (h : A -> B) l :
  (forall a, In a l -> R a (h a)) -> Forall2 R l (map h l).
Proof.
  induction l as [|a l IH]; simpl; intros H; constructor; auto.
Qed.

(* ------------------------------------------------------------------ *)
(** ** Order uniqueness *)

Lemma NoDup_map_on {A B C} (f : A -> B) (g : A -> C) (l : list A) :
  NoDup (map f l) ->
  (forall x y, In x l -> In y l -> g x = g y -> f x = f y) ->
  NoDup (map g l).
Proof.
  induction l as [|a l IH]; simpl; intros Hnd Hinj; [constructor|].
  inversion Hnd as [|? ? Hnotin Hnd']; subst. constructor.
  - intros Hin. apply in_map_iff in Hin. destruct Hin as [y [Hy Hin]].
    apply Hnotin. rewrite (Hinj a y); auto. now apply in_map.
  - apply IH; auto.
Qed.

Lemma filter_map_comm {A B} (h : A -> B) (p : B -> bool) (l : list A) :
  filter p (map h l) = map h (filter (fun a => p (h a)) l).
Proof.
  induction l as [|a l IH]; simpl; [reflexivity|].
  destruct (p (h a)); simpl; now rewrite IH.
Qed.

(** The orders of a timeline only depend on the keys of the rows. *)
Lemma ordersOf_keys t rows rows' :
  map key rows = map key rows' -> ordersOf t rows = ordersOf t rows'.
Proof.
  revert rows'. unfold ordersOf.
  induction rows as [|r rows IH]; intros [|r' rows'] H; try discriminate;
    [reflexivity|].
  cbn [map] in H. injection H as Hi Ht Ho H. simpl. rewrite Ht.
  destruct (Milestone.timelineId r' =? t); simpl; rewrite (IH rows' H);
    congruence.
Qed.

Lemma persistedRow_timelineId o u occ r :
  (Milestone.id r = Milestone.id u ->
   Milestone.timelineId r = Milestone.timelineId u) ->
  Milestone.timelineId (persistedRow o u occ r) = Milestone.timelineId r.
Proof.
  intros H. unfold persistedRow.
  destruct (Z.eqb_spec (Milestone.id r) (Milestone.id u)); [symmetry; auto|].
  now destruct r.
Qed.

Lemma persistedRow_order o u occ r :
  Milestone.order (persistedRow o u occ r)
  = if Milestone.id r =? Milestone.id u then Milestone.order u
    else reindexedOrder o u occ r.
Proof.
  unfold persistedRow.
  destruct (Milestone.id r =? Milestone.id u); [reflexivity|now destruct r].
Qed.

(** Persisting the edited milestone and reindexing keeps the orders of
    every timeline pairwise distinct. *)
Lemma persisted_orders_distinct o u rows t :
  NoDup (map Milestone.id rows) ->
  In o rows ->
  Milestone.id u = Milestone.id o ->
  Milestone.timelineId u = Milestone.timelineId o ->
  NoDup (ordersOf t rows) ->
  NoDup (ordersOf t (map (persistedRow o u (slotOccupied u rows)) rows)).
Proof.
  intros Hids Ho Hid Htl Hnd. unfold ordersOf in *.
  assert (Hsame : forall r, In r rows -> Milestone.id r = Milestone.id u -> r = o).
  { intros r Hr E. apply (NoDup_map_inj Milestone.id rows); auto. congruence. }
  rewrite filter_map_comm.
  rewrite (filter_ext_in _ (fun r => Milestone.timelineId r =? t)).
  2:{ intros r Hr. rewrite persistedRow_timelineId; [reflexivity|].
      intros E. rewrite (Hsame r Hr E). congruence. }
  rewrite map_map.
  apply (NoDup_map_on Milestone.order); [exact Hnd|].
  intros x y Hx Hy. apply filter_In in Hx, Hy.
  destruct Hx as [Hx Hxt], Hy as [Hy Hyt]. apply Z.eqb_eq in Hxt, Hyt.
  rewrite !persistedRow_order.
  (* another row of the timeline of the edited milestone never has its
     stored order, and has its new order only if the slot is occupied *)
  assert (HnotM : forall r, In r rows -> Milestone.timelineId r = t ->
            Milestone.id r <> Milestone.id u ->
            Milestone.timelineId r = Milestone.timelineId u ->
            Milestone.order r <> Milestone.order o).
  { intros r Hr Hrt Hne Hru E. apply Hne.
    assert (r = o); [|congruence].
    apply (NoDup_map_inj Milestone.order
             (filter (fun r => Milestone.timelineId r =? t) rows)); auto;
      apply filter_In; split; auto; apply Z.eqb_eq; congruence. }
  assert (HnotK : forall r, In r rows ->
            Milestone.id r <> Milestone.id u ->
            Milestone.timelineId r = Milestone.timelineId u ->
            slotOccupied u rows = false ->
            Milestone.order r <> Milestone.order u).
  { intros r Hr Hne Hru Hocc. apply (slotOccupied_false u rows r); auto.
    apply isOther_spec. auto. }
  specialize (HnotM x Hx Hxt) as HxM. specialize (HnotM y Hy Hyt) as HyM.
  specialize (HnotK x Hx) as HxK. specialize (HnotK y Hy) as HyK.
  specialize (Hsame x Hx) as Hxo. specialize (Hsame y Hy) as Hyo.
  clear HnotM HnotK Hsame.
  unfold reindexedOrder, isOther.
  destruct (Z.eqb_spec (Milestone.id x) (Milestone.id u)),
    (Z.eqb_spec (Milestone.id y) (Milestone.id u)),
    (Z.eqb_spec (Milestone.timelineId x) (Milestone.timelineId u)),
    (Z.eqb_spec (Milestone.timelineId y) (Milestone.timelineId u)),
    (Z.eqb_spec (Milestone.order o) (Milestone.order u)),
    (slotOccupied u rows),
    (Z.ltb_spec (Milestone.order o) (Milestone.order u)); simpl;
    repeat match goal with
           | |- context [?a <=? ?b] => destruct (Z.leb_spec a b); simpl
           end;
    intros; try congruence; try lia;
    repeat match goal with
           | H : ?P -> _, H' : ?P |- _ => specialize (H H')
           | H : false = false -> _ |- _ => specialize (H eq_refl)
           end;
    subst; try congruence; try lia.
Qed.


(* ------------------------------------------------------------------ *)
(** ** Activation in the store *)

Lemma isDownstream_key u a b :
  key a = key b -> isDownstream u a = isDownstream u b.
Proof.
  intros H. apply key_eq in H. destruct H as [_ [Ht Ho]].
  unfold isDownstream. now rewrite Ht, Ho.
Qed.

Lemma sorted_of_orders l :
  StronglySorted Z.le (map Milestone.order l) -> StronglySorted orderLe l.
Proof.
  induction l as [|a l IH]; simpl; intros H; [constructor|].
  inversion H as [|? ? Hs Hall]; subst. constructor; auto.
  rewrite Forall_forall in *. intros x Hx. apply Hall. now apply in_map.
Qed.

Lemma savedMilestones_sorted o u rows :
  StronglySorted orderLe (savedMilestones o u rows).
Proof.
  apply sorted_of_orders.
  assert (E : map Milestone.order (savedMilestones o u rows)
              = map Milestone.order (comingMilestones u rows)).
  { pose proof (savedMilestones_key o u rows) as K.
    apply (f_equal (map snd)) in K. rewrite !map_map in K. exact K. }
  rewrite E. apply sorted_orders, sortByOrder_sorted.
Qed.

Lemma sorted_app_before {A} (R : A -> A -> Prop) pre m post :
  StronglySorted R (pre ++ m :: post) -> forall p, In p pre -> R p m.
Proof.
  induction pre as [|a pre IH]; simpl; intros H p Hp; [contradiction|].
  inversion H as [|? ? Hs Hall]; subst. destruct Hp as [->|Hp]; [|auto].
  rewrite Forall_forall in Hall. apply Hall. apply in_or_app. right. now left.
Qed.

Lemma NoDup_app_before {A B} (f : A -> B) pre m post :
  NoDup (map f (pre ++ m :: post)) -> forall p, In p pre -> f p <> f m.
Proof.
  induction pre as [|a pre IH]; simpl; intros H p Hp; [contradiction|].
  inversion H as [|? ? Hnotin Hnd]; subst. destruct Hp as [->|Hp]; [|auto].
  intros E. apply Hnotin. rewrite E. apply in_map. apply in_or_app.
  right. now left.
Qed.

(** In the store the cascade leaves behind, a downstream milestone that is
    not hidden, while every other downstream milestone up to its order is,
    has been activated, provided the completion date changed. *)
Lemma cascade_activates_in_store o u rows m' :
  NoDup (map Milestone.id rows) ->
  Milestone.completionDate o <> Milestone.completionDate u ->
  In m' (writeAll (savedMilestones o u rows) rows) ->
  isDownstream u m' = true ->
  Milestone.hidden m' = false ->
  (forall r, In r (writeAll (savedMilestones o u rows) rows) ->
             isDownstream u r = true -> r <> m' ->
             Milestone.order r <= Milestone.order m' ->
             Milestone.hidden r = true) ->
  Milestone.status m' = MILESTONE_STATUS.ACTIVE.
Proof.
  intros Hnd Hchanged Hin Hdown Hvis Hbefore.
  assert (Hsaved : In m' (savedMilestones o u rows)).
  { apply In_writeAll in Hin. destruct Hin as [Hin|[Hin Hfresh]]; [exact Hin|].
    apply isDownstream_spec in Hdown. destruct Hdown as [Ht Ho].
    pose proof (unsaved_not_downstream o u rows m' Hin Hfresh Ht). lia. }
  destruct (in_split _ _ Hsaved) as [pre [post Hsplit]].
  assert (Hids : NoDup (map Milestone.id (savedMilestones o u rows))).
  { rewrite savedMilestones_id. now apply comingMilestones_NoDup. }
  pose proof (savedMilestones_sorted o u rows) as Hsorted.
  assert (Hpre : Forall isHidden pre).
  { rewrite Forall_forall. intros p Hp.
    assert (Hps : In p (savedMilestones o u rows)).
    { rewrite Hsplit. apply in_or_app. now left. }
    apply Hbefore.
    - now apply saved_in_store.
    - destruct (savedMilestones_source _ _ _ _ Hps) as [x [_ [Hx Hk]]].
      now rewrite <- (isDownstream_key u x p Hk).
    - rewrite Hsplit in Hids. intros ->.
      now apply (NoDup_app_before Milestone.id pre m' post Hids m' Hp).
    - rewrite Hsplit in Hsorted.
      exact (sorted_app_before orderLe pre m' post Hsorted p Hp). }
  eapply (expectedStatuses_first_visible (comingMilestones u rows)
            (savedMilestones o u rows)); eauto.
  - apply cascadeLoop_hidden.
  - unfold savedMilestones. replace (isEqual _ _) with false.
    + apply cascadeLoop_status_activated.
    + symmetry. apply not_true_is_false. intros E. now apply isEqual_true in E.
Qed.


(* ------------------------------------------------------------------ *)
(** ** Status transitions and the clock *)

Lemma statusChanged_true m e s :
  Entity.status e = Some s -> s <> EmptyString -> s <> Milestone.status m ->
  statusChanged m e = true.
Proof.
  intros Hs Hne Hdiff. unfold statusChanged. rewrite Hs.
  apply andb_true_intro. split.
  - destruct s; [congruence|reflexivity].
  - apply negb_true_iff. now apply String.eqb_neq.
Qed.

Lemma utcMidnight_spec now :
  utcMidnight now mod MS_PER_DAY = 0
  /\ utcMidnight now <= now < utcMidnight now + MS_PER_DAY.
Proof.
  unfold utcMidnight, MS_PER_DAY. split.
  - apply Z.mod_mul. lia.
  - pose proof (Z.div_mod now 86400000 ltac:(lia)).
    pose proof (Z.mod_pos_bound now 86400000 ltac:(lia)). lia.
Qed.

(* ------------------------------------------------------------------ *)
(** ** Consistency of the dates *)

Lemma chained_consistent s l : chained s l -> Forall datesConsistent l.
Proof.
  revert s. induction l as [|m l IH]; intros s H; [constructor|].
  destruct H as [Hs [He Hrest]]. constructor; [|eauto].
  unfold datesConsistent. now rewrite He, Hs.
Qed.

Lemma datesConsistent_set_order v r :
  datesConsistent (Milestone.set_order v r) <-> datesConsistent r.
Proof. now destruct r. Qed.

Lemma durationChanged_false m req d :
  durationChanged m (entityOfRequest req) = false ->
  Param.duration (Request.param req) = Some d -> 1 <= d ->
  d = Milestone.duration m.
Proof.
  unfold durationChanged. cbn [entityOfRequest Entity.duration].
  intros H Hd Hpos. rewrite Hd in H. unfold truthyNum in H.
  destruct (Z.eqb_spec d 0); [lia|].
  destruct (Z.eqb_spec d (Milestone.duration m)); [assumption|discriminate].
Qed.

Lemma durationChanged_true m req :
  durationChanged m (entityOfRequest req) = true ->
  exists d, Param.duration (Request.param req) = Some d.
Proof.
  unfold durationChanged. cbn [entityOfRequest Entity.duration].
  destruct (Param.duration (Request.param req)) as [d|]; [eauto|discriminate].
Qed.

(** The dates of the persisted milestone, relative to the stored start
    date. *)
Lemma resolved_endDate_from_stored_start now req m :
  (forall d, Param.duration (Request.param req) = Some d -> 1 <= d) ->
  datesConsistent m ->
  Milestone.endDate (resolved now req m)
  = addDays (Milestone.startDate m) (Milestone.duration (resolved now req m) - 1).
Proof.
  intros Hpos Hm. rewrite resolved_endDate, resolved_duration.
  destruct (durationChanged m (entityOfRequest req)) eqn:E.
  - apply durationChanged_true in E. destruct E as [d ->]. reflexivity.
  - destruct (Param.duration (Request.param req)) as [d|] eqn:Hd; [|exact Hm].
    cbn [orElse]. rewrite (durationChanged_false m req d E Hd (Hpos d eq_refl)).
    exact Hm.
Qed.

(** Unless the request activates the milestone, an update keeps the dates of
    every milestone consistent. *)
Lemma datesConsistent_preserved now req db original updated db' :
  update now req db = (Resolved (original, updated), db') ->
  (forall d, Param.duration (Request.param req) = Some d -> 1 <= d) ->
  requestedTransition original (entityOfRequest req) MILESTONE_STATUS.ACTIVE = false ->
  Forall datesConsistent (milestones db) ->
  Forall datesConsistent (milestones db').
Proof.
  intros Hrun Hpos Hact Hall.
  apply update_resolved_inv in Hrun. destruct Hrun as [Hfind [_ [Hu Hdb]]].
  apply findMilestone_some in Hfind. destruct Hfind as [Hin _].
  rewrite Forall_forall in Hall.
  assert (Hupd : datesConsistent updated).
  { unfold datesConsistent. rewrite Hu at 1.
    rewrite (resolved_endDate_from_stored_start now req original Hpos (Hall _ Hin)).
    rewrite Hu, resolved_startDate, Hact. reflexivity. }
  assert (Hrows : forall r,
            In r (reindexRows original updated (writeRow updated (milestones db))) ->
            datesConsistent r).
  { intros r Hr. rewrite persisted_rows in Hr. apply in_map_iff in Hr.
    destruct Hr as [x [<- Hx]]. unfold persistedRow.
    destruct (Milestone.id x =? Milestone.id updated); [exact Hupd|].
    apply datesConsistent_set_order. auto. }
  subst db'. unfold finalDB, cascadeDB. rewrite <- Hu.
  destruct (cascadeTriggered original updated); cbn [milestones];
    rewrite Forall_forall; [|exact Hrows].
  intros r Hr. apply In_writeAll in Hr. destruct Hr as [Hr|[Hr _]]; [|auto].
  pose proof (chained_consistent _ _
                (cascadeLoop_chained (Milestone.updatedBy updated)
                   (negb (isEqual (Milestone.completionDate original)
                                  (Milestone.completionDate updated)))
                   (nextStartDate updated) false
                   (comingMilestones updated
                      (reindexRows original updated
                         (writeRow updated (milestones db)))))) as Hc.
  rewrite Forall_forall in Hc. now apply Hc.
Qed.

Lemma addDays_cancel a b n : addDays a n = addDays b n -> a = b.
Proof. unfold addDays. lia. Qed.

(** Activating a milestone on another day than its stored start date leaves
    its end date behind. *)
Lemma activation_breaks_datesConsistent now req db original updated db' :
  update now req db = (Resolved (original, updated), db') ->
  (forall d, Param.duration (Request.param req) = Some d -> 1 <= d) ->
  requestedTransition original (entityOfRequest req) MILESTONE_STATUS.ACTIVE = true ->
  datesConsistent original ->
  utcMidnight now <> Milestone.startDate original ->
  ~ datesConsistent updated.
Proof.
  intros Hrun Hpos Hact Hcons Hday.
  apply update_resolved_inv in Hrun. destruct Hrun as [_ [_ [Hu _]]].
  subst updated. unfold datesConsistent.
  rewrite (resolved_endDate_from_stored_start now req original Hpos Hcons).
  rewrite resolved_startDate, Hact.
  intros E. apply addDays_cancel in E. congruence.
Qed.


(* ------------------------------------------------------------------ *)
(** * The claims *)

Ltac distinct_ids := cbn; repeat constructor; cbn; lia.

(** C1 (Scenario A).  In a timeline whose milestones have the orders 1, 2, 3
    and the durations 5, 3, 4 days, where milestone 1 starts on 2024-01-01
    and no completion date is set, a request that only sets the duration of
    milestone 1 to 10 resolves and leaves: milestone 1 ending on 2024-01-10,
    milestone 2 from 2024-01-11 to 2024-01-13, milestone 3 from 2024-01-14
    to 2024-01-17, and the timeline ending on 2024-01-17.  Every other
    column of the three rows, and the timeline before, are arbitrary. *)
Theorem scenario_A now req tl m1 m2 m3 :
  Milestone.timelineId m1 = Request.timelineId req ->
  Milestone.timelineId m2 = Request.timelineId req ->
  Milestone.timelineId m3 = Request.timelineId req ->
  Milestone.id m1 <> Milestone.id m2 ->
  Milestone.id m1 <> Milestone.id m3 ->
  Milestone.id m2 <> Milestone.id m3 ->
  Milestone.order m1 = 1 -> Milestone.order m2 = 2 -> Milestone.order m3 = 3 ->
  Milestone.duration m1 = 5 -> Milestone.duration m2 = 3 ->
  Milestone.duration m3 = 4 ->
  Milestone.startDate m1 = utcDate 2024 1 1 ->
  Milestone.completionDate m1 = None ->
  Milestone.completionDate m2 = None ->
  Milestone.completionDate m3 = None ->
  Request.milestoneId req = Milestone.id m1 ->
  Request.param req = onlyDuration 10 ->
  exists updated m2' m3' tl',
    update now req (mkDB [m1; m2; m3] tl)
    = (Resolved (m1, updated), mkDB [updated; m2'; m3'] tl')
    /\ Milestone.id updated = Milestone.id m1
    /\ Milestone.id m2' = Milestone.id m2
    /\ Milestone.id m3' = Milestone.id m3
    /\ Milestone.startDate updated = utcDate 2024 1 1
    /\ Milestone.endDate updated = utcDate 2024 1 10
    /\ Milestone.startDate m2' = utcDate 2024 1 11
    /\ Milestone.endDate m2' = utcDate 2024 1 13
    /\ Milestone.startDate m3' = utcDate 2024 1 14
    /\ Milestone.endDate m3' = utcDate 2024 1 17
    /\ Timeline.endDate tl' = Some (utcDate 2024 1 17).
Proof.
  intros Ht1 Ht2 Ht3 H12 H13 H23 Ho1 Ho2 Ho3 Hd1 Hd2 Hd3 Hs1 Hc1 Hc2 Hc3 Hmid Hp.
  assert (E21 : (Milestone.id m2 =? Milestone.id m1) = false) by (apply Z.eqb_neq; congruence).
  assert (E31 : (Milestone.id m3 =? Milestone.id m1) = false) by (apply Z.eqb_neq; congruence).
  assert (E32 : (Milestone.id m3 =? Milestone.id m2) = false) by (apply Z.eqb_neq; congruence).
  assert (E23 : (Milestone.id m2 =? Milestone.id m3) = false) by (apply Z.eqb_neq; congruence).
  assert (E12 : (Milestone.id m1 =? Milestone.id m2) = false) by (apply Z.eqb_neq; congruence).
  assert (E13 : (Milestone.id m1 =? Milestone.id m3) = false) by (apply Z.eqb_neq; congruence).
  rewrite (update_run now _ _ m1).
  2:{ unfold findMilestone. simpl. now rewrite Ht1, Hmid, !Z.eqb_refl. }
  2:{ unfold completionBeforeStart, entityOfRequest. simpl. now rewrite Hp. }
  unfold finalDB. cbn [milestones timeline].
  remember (resolved now req m1) as u eqn:Hu.
  assert (Uid : Milestone.id u = Milestone.id m1) by (now rewrite Hu).
  assert (Utl : Milestone.timelineId u = Request.timelineId req)
    by (rewrite Hu; apply resolved_timelineId).
  assert (Uord : Milestone.order u = 1).
  { rewrite Hu. rewrite resolved_order, Hp. exact Ho1. }
  assert (Udur : Milestone.duration u = 10).
  { rewrite Hu. rewrite resolved_duration, Hp. reflexivity. }
  assert (Ucd : Milestone.completionDate u = None).
  { rewrite Hu. rewrite resolved_completionDate.
    unfold requestedTransition, statusChanged, entityOfRequest.
    rewrite Hp. exact Hc1. }
  assert (Ust : Milestone.startDate u = utcDate 2024 1 1).
  { rewrite Hu. rewrite resolved_startDate.
    unfold requestedTransition, statusChanged, entityOfRequest.
    rewrite Hp. exact Hs1. }
  assert (Uend : Milestone.endDate u = utcDate 2024 1 10).
  { rewrite Hu. rewrite resolved_endDate.
    unfold durationChanged, entityOfRequest. rewrite Hp. cbn. rewrite Hd1, Hs1.
    reflexivity. }
  assert (W : writeRow u [m1; m2; m3] = [u; m2; m3]).
  { unfold writeRow. cbn. now rewrite Uid, Z.eqb_refl, E21, E31. }
  rewrite W, reindexRows_same_order by congruence.
  unfold cascadeDB. cbn [milestones timeline].
  assert (T : cascadeTriggered m1 u = true).
  { unfold cascadeTriggered. rewrite Udur, Hd1. apply orb_true_r. }
  rewrite T.
  assert (C : comingMilestones u [u; m2; m3] = [m2; m3]).
  { unfold comingMilestones, isDownstream. cbn.
    rewrite Utl, Ht2, Ht3, Uord, Ho2, Ho3, !Z.eqb_refl. cbn.
    rewrite Ho2, Ho3. reflexivity. }
  unfold savedMilestones. rewrite C, !cascadeLoop_cons. cbn [cascadeLoop].
  set (c := negb (isEqual _ _)).
  set (m2' := fst (cascadeStep _ c (nextStartDate u) false m2)).
  set (f2 := snd (cascadeStep _ c (nextStartDate u) false m2)).
  set (m3' := fst (cascadeStep _ c (nextStartDate m2') f2 m3)).
  assert (K2 : key m2' = key m2) by apply cascadeStep_key.
  assert (K3 : key m3' = key m3) by apply cascadeStep_key.
  assert (I2 : Milestone.id m2' = Milestone.id m2) by (unfold key in K2; congruence).
  assert (I3 : Milestone.id m3' = Milestone.id m3) by (unfold key in K3; congruence).
  assert (S2 : Milestone.startDate m2' = utcDate 2024 1 11).
  { subst m2'. rewrite cascadeStep_startDate. unfold nextStartDate.
    rewrite Ucd, Uend. reflexivity. }
  assert (N2 : Milestone.endDate m2' = utcDate 2024 1 13).
  { subst m2'. rewrite cascadeStep_endDate. unfold nextStartDate.
    rewrite Ucd, Uend, Hd2. reflexivity. }
  assert (C2 : Milestone.completionDate m2' = None).
  { subst m2'. rewrite cascadeStep_completionDate. exact Hc2. }
  assert (S3 : Milestone.startDate m3' = utcDate 2024 1 14).
  { subst m3'. rewrite cascadeStep_startDate. unfold nextStartDate.
    rewrite C2, N2. reflexivity. }
  assert (N3 : Milestone.endDate m3' = utcDate 2024 1 17).
  { subst m3'. rewrite cascadeStep_endDate. unfold nextStartDate.
    rewrite C2, N2, Hd3. reflexivity. }
  exists u, m2', m3', (syncedTimeline m3' tl).
  split.
  { f_equal. f_equal. unfold writeAll, writeRow. cbn.
    rewrite ?I2, ?I3, ?Uid, ?Z.eqb_refl, ?E12, ?E13, ?E23, ?E32. cbn.
    rewrite ?I2, ?I3, ?Uid, ?Z.eqb_refl, ?E12, ?E13, ?E23, ?E32. reflexivity. }
  rewrite syncedTimeline_endDate, N3. repeat split; auto.
Qed.

Lemma scenario_A_witness :
  exists updated m2' m3' tl',
    update 0 (sampleRequest 1 (onlyDuration 10)) scenarioA
    = (Resolved (rowA1, updated), mkDB [updated; m2'; m3'] tl')
    /\ Milestone.endDate updated = utcDate 2024 1 10
    /\ Milestone.startDate m2' = utcDate 2024 1 11
    /\ Milestone.endDate m2' = utcDate 2024 1 13
    /\ Milestone.startDate m3' = utcDate 2024 1 14
    /\ Milestone.endDate m3' = utcDate 2024 1 17
    /\ Timeline.endDate tl' = Some (utcDate 2024 1 17).
Proof.
  destruct (scenario_A 0 (sampleRequest 1 (onlyDuration 10)) sampleTimeline
              rowA1 rowA2 rowA3)
    as [updated [m2' [m3' [tl' H]]]];
    try reflexivity; try discriminate.
  exists updated, m2', m3', tl'. tauto.
Defined.

(** C2.  After an update that triggers the date cascade, the end date of
    the timeline is the end date of the last milestone of the cascade; that
    milestone is a row of the timeline in the final store, none has a
    greater order, and it is the edited milestone itself when no row of the
    timeline comes after it.  The synchroniser leaves the timeline as it was
    when the two end dates were equal, and otherwise writes the new end date
    together with the [updatedBy] of that milestone.  Ids are the primary
    key of the table. *)
Theorem timeline_endDate_follows_last_milestone now req db original updated db' :
  NoDup (map Milestone.id (milestones db)) ->
  update now req db = (Resolved (original, updated), db') ->
  cascadeTriggered original updated = true ->
  exists lastM,
    In lastM (milestones db')
    /\ Milestone.timelineId lastM = Request.timelineId req
    /\ (forall r, In r (milestones db') ->
                  Milestone.timelineId r = Request.timelineId req ->
                  Milestone.order r <= Milestone.order lastM)
    /\ ((forall r, In r (milestones db') ->
                   Milestone.timelineId r = Request.timelineId req ->
                   Milestone.order r <= Milestone.order updated) ->
        lastM = updated)
    /\ Timeline.endDate (timeline db') = Some (Milestone.endDate lastM)
    /\ timeline db'
       = if isEqual (Some (Milestone.endDate lastM)) (Timeline.endDate (timeline db))
         then timeline db
         else Timeline.mk (Timeline.id (timeline db))
                          (Some (Milestone.endDate lastM))
                          (Milestone.updatedBy lastM).
Proof.
  intros Hnd Hrun Htrig.
  apply update_resolved_inv in Hrun. destruct Hrun as [Hfind [_ [Hu Hdb]]].
  subst db'. unfold finalDB, cascadeDB. rewrite <- Hu, Htrig.
  cbn [milestones timeline].
  set (rows := reindexRows original updated (writeRow updated (milestones db))).
  assert (Hnd' : NoDup (map Milestone.id rows)).
  { unfold rows. rewrite Hu, store_ids_kept. exact Hnd. }
  assert (Hin : In updated rows).
  { unfold rows. rewrite Hu. now apply updated_in_store. }
  assert (Ht : Milestone.timelineId updated = Request.timelineId req).
  { rewrite Hu. apply resolved_timelineId. }
  destruct (cascade_last_greatest original updated rows Hnd' Hin)
    as [H1 [H2 [H3 H4]]].
  rewrite Ht in *.
  exists (popOr (savedMilestones original updated rows) updated).
  repeat split; auto. apply syncedTimeline_endDate.
Qed.

Lemma timeline_endDate_follows_last_milestone_witness :
  exists lastM,
    In lastM (milestones (finalDB 0 (sampleRequest 1 (onlyDuration 10)) rowA1 scenarioA))
    /\ Milestone.order lastM = 3
    /\ Timeline.endDate
         (timeline (finalDB 0 (sampleRequest 1 (onlyDuration 10)) rowA1 scenarioA))
       = Some (Milestone.endDate lastM).
Proof.
  destruct (timeline_endDate_follows_last_milestone
              0 (sampleRequest 1 (onlyDuration 10)) scenarioA rowA1
              (resolved 0 (sampleRequest 1 (onlyDuration 10)) rowA1)
              (finalDB 0 (sampleRequest 1 (onlyDuration 10)) rowA1 scenarioA))
    as [lastM [Hin [Ht [Hmax [_ [Hend _]]]]]].
  - distinct_ids.
  - apply update_run; reflexivity.
  - reflexivity.
  - exists lastM. split; [exact Hin|]. split; [|exact Hend].
    assert (Hle : Milestone.order lastM <= 3).
    { vm_compute in Hin. intuition (subst; vm_compute; discriminate). }
    assert (Hge : 3 <= Milestone.order lastM).
    { apply (Hmax (last (milestones (finalDB 0 (sampleRequest 1 (onlyDuration 10))
                                        rowA1 scenarioA)) rowA1)).
      - vm_compute. tauto.
      - reflexivity. }
    lia.
Defined.

Lemma Forall2_nth_error {A B} (R : A -> B -> Prop) l l' n a b :
  Forall2 R l l' -> nth_error l n = Some a -> nth_error l' n = Some b -> R a b.
Proof.
  intros H. revert n. induction H as [|x y l l' Hxy _ IH]; intros [|n] Ha Hb;
    simpl in *; try discriminate.
  - injection Ha as <-. injection Hb as <-. exact Hxy.
  - eauto.
Qed.

(** C3.  When an accepted request moves the edited milestone from order M
    to order K, every other row keeps its id and: if the slot K was taken by
    another milestone of the timeline and K > M, the rows of the timeline
    with an order in [M+1, K] have it decremented by 1; if the slot was
    taken and K < M, those with an order in [K, M-1] have it incremented by
    1; if the slot was free, or K = M, no order changes; and the rows of
    another timeline or outside the range keep their order in every case.
    Ids are the primary key of the table. *)
Theorem reindex_shifts_the_range now req db original updated db' :
  NoDup (map Milestone.id (milestones db)) ->
  update now req db = (Resolved (original, updated), db') ->
  let M := Milestone.order original in
  let K := Milestone.order updated in
  let occupied := slotOccupied updated (milestones db) in
  Forall2
    (fun r r' =>
       Milestone.id r' = Milestone.id r
       /\ (Milestone.id r <> Milestone.id updated ->
           (occupied = true -> M < K ->
            Milestone.timelineId r = Milestone.timelineId updated ->
            M + 1 <= Milestone.order r <= K ->
            Milestone.order r' = Milestone.order r - 1)
           /\ (occupied = true -> K < M ->
               Milestone.timelineId r = Milestone.timelineId updated ->
               K <= Milestone.order r <= M - 1 ->
               Milestone.order r' = Milestone.order r + 1)
           /\ (occupied = false \/ K = M ->
               Milestone.order r' = Milestone.order r)
           /\ (Milestone.timelineId r <> Milestone.timelineId updated
               \/ (M < K /\ ~ (M + 1 <= Milestone.order r <= K))
               \/ (K < M /\ ~ (K <= Milestone.order r <= M - 1)) ->
               Milestone.order r' = Milestone.order r)))
    (milestones db) (milestones db').
Proof.
  intros Hnd Hrun M K occupied.
  apply update_resolved_inv in Hrun. destruct Hrun as [Hfind [_ [Hu Hdb]]].
  pose proof (final_keys now req db original Hnd) as Hkeys.
  rewrite <- Hu, <- Hdb, map_map in Hkeys. symmetry in Hkeys.
  apply Forall2_of_map_eq in Hkeys.
  eapply Forall2_impl; [|exact Hkeys].
  intros r r' Hk. cbv beta in Hk. unfold persistedRow in Hk. revert Hk.
  destruct (Z.eqb_spec (Milestone.id r) (Milestone.id updated)) as [E|E];
    intros Hk.
  - split; [|congruence]. apply key_eq in Hk. destruct Hk. congruence.
  - apply key_eq in Hk. destruct Hk as [Hid [_ Ho]].
    replace (Milestone.id (Milestone.set_order _ r)) with (Milestone.id r)
      in Hid by now destruct r.
    replace (Milestone.order (Milestone.set_order _ r))
      with (reindexedOrder original updated occupied r)
      in Ho by now destruct r.
    symmetry in Hid, Ho.
    split; [exact Hid|]. intros _. rewrite Ho. unfold reindexedOrder.
    fold M K. unfold isOther.
    destruct (Z.eqb_spec M K), occupied,
      (Z.eqb_spec (Milestone.timelineId r) (Milestone.timelineId updated)),
      (Z.eqb_spec (Milestone.id r) (Milestone.id updated)),
      (Z.ltb_spec M K); simpl;
      repeat match goal with
             | |- context [?a <=? ?b] => destruct (Z.leb_spec a b); simpl
             end;
      repeat split; intros; try congruence; try lia;
      repeat match goal with
             | H : _ \/ _ |- _ => destruct H
             | H : _ /\ _ |- _ => destruct H
             end; try congruence; try lia.
Qed.

Lemma reindex_shifts_the_range_witness :
  slotOccupied (resolved 0 (sampleRequest 2 (onlyOrder 4)) rowB2)
               (milestones scenarioB) = true
  /\ forall r',
       nth_error (milestones (finalDB 0 (sampleRequest 2 (onlyOrder 4))
                                     rowB2 scenarioB)) 2 = Some r' ->
       Milestone.order r' = Milestone.order rowA3 - 1.
Proof.
  split; [reflexivity|]. intros r' Hr'.
  pose proof (reindex_shifts_the_range
                0 (sampleRequest 2 (onlyOrder 4)) scenarioB rowB2
                (resolved 0 (sampleRequest 2 (onlyOrder 4)) rowB2)
                (finalDB 0 (sampleRequest 2 (onlyOrder 4)) rowB2 scenarioB)
                ltac:(distinct_ids)
                ltac:(apply update_run; reflexivity)) as H.
  cbv zeta in H.
  destruct (Forall2_nth_error _ _ _ 2 rowA3 r' H eq_refl Hr') as [_ Hshift].
  destruct Hshift as [Hup _]; [vm_compute; discriminate|].
  apply Hup; [reflexivity|reflexivity|reflexivity|vm_compute].
  split; discriminate.
Defined.

(** C4.  If the orders of the milestones of a timeline are pairwise
    distinct before an accepted request, they are pairwise distinct in the
    store the request leaves behind, whatever it reindexed and cascaded.
    Ids are the primary key of the table. *)
Theorem orders_stay_distinct now req db original updated db' t :
  NoDup (map Milestone.id (milestones db)) ->
  update now req db = (Resolved (original, updated), db') ->
  NoDup (ordersOf t (milestones db)) ->
  NoDup (ordersOf t (milestones db')).
Proof.
  intros Hids Hrun Hnd.
  apply update_resolved_inv in Hrun. destruct Hrun as [Hfind [_ [Hu Hdb]]].
  pose proof (final_keys now req db original Hids) as Hkeys.
  rewrite <- Hu, <- Hdb in Hkeys.
  rewrite (ordersOf_keys t _ _ Hkeys).
  apply findMilestone_some in Hfind. destruct Hfind as [Hin [Ht Hi]].
  apply persisted_orders_distinct; auto.
  - rewrite Hu. apply resolved_id.
  - rewrite Hu, resolved_timelineId. congruence.
Qed.

Lemma orders_stay_distinct_witness :
  NoDup (ordersOf 7 (milestones scenarioB))
  /\ NoDup (ordersOf 7 (milestones (finalDB 0 (sampleRequest 2 (onlyOrder 4))
                                            rowB2 scenarioB))).
Proof.
  assert (H : NoDup (ordersOf 7 (milestones scenarioB))) by distinct_ids.
  split; [exact H|].
  apply (orders_stay_distinct 0 (sampleRequest 2 (onlyOrder 4)) scenarioB rowB2
           (resolved 0 (sampleRequest 2 (onlyOrder 4)) rowB2)).
  - distinct_ids.
  - apply update_run; reflexivity.
  - exact H.
Defined.

(** C5.  [updateComingMilestones] saves the milestones that come after the
    edited one: the list it walks holds exactly the rows of the timeline
    with a greater order, sorted by ascending order, and each is saved with
    the id, the timeline, the order and the hidden flag it had.  Hidden or
    not, each one starts at the cursor and ends [duration - 1] days later.
    When the completion date of the edited milestone changed, the statuses
    are those of [expectedStatuses] on that ascending list: the first
    milestone that is not hidden is ACTIVE and every other status is as it
    was; when it did not change (a cascade triggered by the duration
    alone), every status is as it was. *)
Theorem cascade_activates_first_visible original updated db :
  let coming := comingMilestones updated (milestones db) in
  let saved := savedMilestones original updated (milestones db) in
  updateComingMilestones original updated db
  = (Resolved (popOr saved updated),
     mkDB (writeAll saved (milestones db)) (timeline db))
  /\ Permutation coming (filter (isDownstream updated) (milestones db))
  /\ StronglySorted orderLe coming
  /\ map key saved = map key coming
  /\ map Milestone.hidden saved = map Milestone.hidden coming
  /\ chained (nextStartDate updated) saved
  /\ (Milestone.completionDate original <> Milestone.completionDate updated ->
      map Milestone.status saved = expectedStatuses coming)
  /\ (Milestone.completionDate original = Milestone.completionDate updated ->
      map Milestone.status saved = map Milestone.status coming).
Proof.
  intros coming saved.
  split; [apply updateComingMilestones_run|].
  split; [apply sortByOrder_perm|].
  split; [apply sortByOrder_sorted|].
  split; [apply savedMilestones_key|].
  split; [apply cascadeLoop_hidden|].
  split; [apply cascadeLoop_chained|].
  unfold saved, savedMilestones. fold coming. split; intros H.
  - replace (isEqual _ _) with false.
    + apply cascadeLoop_status_activated.
    + symmetry. apply not_true_is_false. intros E. now apply isEqual_true in E.
  - replace (isEqual _ _) with true by (symmetry; now apply isEqual_true).
    apply cascadeLoop_status_kept. now left.
Qed.

Lemma cascade_activates_first_visible_witness :
  map Milestone.order
      (savedMilestones rowA1 rowE1 (milestones scenarioEShuffled))
  = [2; 3]
  /\ map Milestone.status
         (savedMilestones rowA1 rowE1 (milestones scenarioEShuffled))
     = [MILESTONE_STATUS.ACTIVE; MILESTONE_STATUS.PLANNED]
  /\ map Milestone.status
         (savedMilestones rowA1 rowE1 (milestones scenarioE))
     = [MILESTONE_STATUS.PLANNED; MILESTONE_STATUS.ACTIVE].
Proof.
  destruct (cascade_activates_first_visible rowA1 rowE1 scenarioEShuffled)
    as [_ [_ [_ [Hkey [_ [_ [Hchanged _]]]]]]].
  destruct (cascade_activates_first_visible rowA1 rowE1 scenarioE)
    as [_ [_ [_ [_ [_ [_ [HchangedE _]]]]]]].
  split; [|split].
  - assert (Ho : map Milestone.order
                     (savedMilestones rowA1 rowE1 (milestones scenarioEShuffled))
                 = map snd (map key (savedMilestones rowA1 rowE1
                                       (milestones scenarioEShuffled))))
      by (rewrite map_map; reflexivity).
    rewrite Ho, Hkey. reflexivity.
  - rewrite Hchanged; [reflexivity|discriminate].
  - rewrite HchangedE; [reflexivity|discriminate].
Defined.

(** C6.  In an accepted request whose status is not empty and differs from
    the stored one: the status COMPLETED sets the completion date to the
    one supplied, and to today at UTC midnight when none was supplied (or
    null); the status ACTIVE sets the start date to today at UTC midnight;
    and the persisted status is the requested one, never a forced one.  In
    a request that leaves the status alone and supplies a completion date
    other than the stored one, the persisted status is COMPLETED.  Today at
    UTC midnight is the multiple of a day at or before the clock. *)
Theorem status_transition_side_effects now req db original updated db' :
  update now req db = (Resolved (original, updated), db') ->
  let p := Request.param req in
  (forall s, Param.status p = Some s -> s <> EmptyString ->
             s <> Milestone.status original ->
     (s = MILESTONE_STATUS.COMPLETED ->
      Milestone.completionDate updated
      = Some (match Param.completionDate p with
              | Some (Some c) => c
              | _ => utcMidnight now
              end))
     /\ (s = MILESTONE_STATUS.ACTIVE ->
         Milestone.startDate updated = utcMidnight now)
     /\ Milestone.status updated = s)
  /\ (Param.status p = None \/ Param.status p = Some (Milestone.status original) ->
      forall c, Param.completionDate p = Some (Some c) ->
                Milestone.completionDate original <> Some c ->
                Milestone.status updated = MILESTONE_STATUS.COMPLETED)
  /\ utcMidnight now mod MS_PER_DAY = 0
  /\ utcMidnight now <= now < utcMidnight now + MS_PER_DAY.
Proof.
  intros Hrun p.
  apply update_resolved_inv in Hrun. destruct Hrun as [_ [_ [Hu _]]].
  split; [|split; [|apply utcMidnight_spec]].
  - intros s Hs Hne Hdiff.
    assert (Hch : statusChanged original (entityOfRequest req) = true)
      by (now apply (statusChanged_true _ _ s)).
    repeat split.
    + intros ->. rewrite Hu, resolved_completionDate.
      unfold requestedTransition. rewrite Hch. cbn [andb entityOfRequest Entity.status].
      fold p. rewrite Hs. reflexivity.
    + intros ->. rewrite Hu, resolved_startDate.
      unfold requestedTransition. rewrite Hch. cbn [andb entityOfRequest Entity.status].
      fold p. rewrite Hs. reflexivity.
    + rewrite Hu, resolved_status, Hch. cbn [negb andb]. fold p. now rewrite Hs.
  - intros Hsame c Hc Hdiff. rewrite Hu, resolved_status.
    assert (Hch : statusChanged original (entityOfRequest req) = false).
    { unfold statusChanged. cbn [entityOfRequest Entity.status]. fold p.
      destruct Hsame as [-> | ->]; [reflexivity|].
      rewrite String.eqb_refl. apply andb_false_r. }
    assert (Hcd : completionDateChanged original (entityOfRequest req) = true).
    { unfold completionDateChanged. cbn [entityOfRequest Entity.completionDate].
      fold p. rewrite Hc. apply negb_true_iff. apply not_true_is_false.
      intros E. now apply isEqual_true in E. }
    rewrite Hch, Hcd. reflexivity.
Qed.

Lemma status_transition_side_effects_witness :
  Milestone.completionDate
    (resolved noonOfFebruaryFirst
              (sampleRequest 1 (onlyStatus MILESTONE_STATUS.COMPLETED)) rowA1)
  = Some (utcDate 2024 2 1).
Proof.
  destruct (status_transition_side_effects
              noonOfFebruaryFirst
              (sampleRequest 1 (onlyStatus MILESTONE_STATUS.COMPLETED)) oneRow
              rowA1
              (resolved noonOfFebruaryFirst
                 (sampleRequest 1 (onlyStatus MILESTONE_STATUS.COMPLETED)) rowA1)
              (finalDB noonOfFebruaryFirst
                 (sampleRequest 1 (onlyStatus MILESTONE_STATUS.COMPLETED))
                 rowA1 oneRow)
              ltac:(apply update_run; reflexivity)) as [Hchanged _].
  destruct (Hchanged MILESTONE_STATUS.COMPLETED eq_refl
              ltac:(discriminate) ltac:(discriminate)) as [Hdone _].
  rewrite (Hdone eq_refl). reflexivity.
Defined.

(** C7.  When the milestone of the request exists and the request supplies
    a completion date strictly before its stored start date, the handler
    rejects with status 422 and the store is as it was: no row and no
    timeline column is written. *)
Theorem completionDate_before_startDate_rejected now req db milestone c :
  findMilestone req db = Some milestone ->
  Param.completionDate (Request.param req) = Some (Some c) ->
  c < Milestone.startDate milestone ->
  update now req db = (Rejected 422, db).
Proof.
  intros Hfind Hc Hlt.
  unfold update, transaction, work, bind, Milestone_findOne.
  unfold findMilestone in Hfind. rewrite Hfind.
  unfold completionBeforeStart. cbn [entityOfRequest Entity.completionDate].
  rewrite Hc. apply Z.ltb_lt in Hlt. rewrite Hlt. reflexivity.
Qed.

Lemma completionDate_before_startDate_rejected_witness :
  update 0 (sampleRequest 1 (onlyCompletionDate (Some (utcDate 2023 12 31)))) oneRow
  = (Rejected 422, oneRow).
Proof.
  apply (completionDate_before_startDate_rejected
           0 (sampleRequest 1 (onlyCompletionDate (Some (utcDate 2023 12 31))))
           oneRow rowA1 (utcDate 2023 12 31)); reflexivity.
Defined.

(** C8, at an input where the code departs from it.  At noon of 2024-02-01 a
    request activates the only milestone of the store, planned for 5 days
    from 2024-01-01 to 2024-01-05.  The dates of the store are consistent
    before; the request resolves, and the row it leaves starts on
    2024-02-01 and still ends on 2024-01-05: its end date is no longer its
    start date plus [duration - 1] days. *)
Theorem activation_leaves_endDate_behind :
  Forall datesConsistent (milestones oneRow)
  /\ exists original updated db',
       update noonOfFebruaryFirst
              (sampleRequest 1 (onlyStatus MILESTONE_STATUS.ACTIVE)) oneRow
       = (Resolved (original, updated), db')
       /\ milestones db' = [updated]
       /\ Milestone.duration updated = 5
       /\ Milestone.startDate updated = utcDate 2024 2 1
       /\ Milestone.endDate updated = utcDate 2024 1 5
       /\ ~ datesConsistent updated.
Proof.
  split.
  - repeat constructor.
  - eexists _, _, _. split; [vm_compute; reflexivity|].
    repeat split. vm_compute. discriminate.
Qed.

(** C9, as amended.  When the resolved completion date and duration of the
    edited milestone equal the stored ones, the cascade is not triggered:
    the timeline is left as it was, every other row keeps every column
    except possibly its order, and when the order of the edited milestone
    did not change either, every other row is left as it was. *)
Theorem no_cascade_without_date_change now req db original updated db' :
  update now req db = (Resolved (original, updated), db') ->
  Milestone.completionDate updated = Milestone.completionDate original ->
  Milestone.duration updated = Milestone.duration original ->
  cascadeTriggered original updated = false
  /\ timeline db' = timeline db
  /\ Forall2 (fun r r' => Milestone.id r <> Milestone.id updated ->
                          r' = Milestone.set_order (Milestone.order r') r)
             (milestones db) (milestones db')
  /\ (Milestone.order updated = Milestone.order original ->
      Forall2 (fun r r' => Milestone.id r <> Milestone.id updated -> r' = r)
              (milestones db) (milestones db')).
Proof.
  intros Hrun Hcd Hdur.
  apply update_resolved_inv in Hrun. destruct Hrun as [_ [_ [Hu Hdb]]].
  assert (Htrig : cascadeTriggered original updated = false).
  { unfold cascadeTriggered. rewrite Hcd, Hdur, Z.eqb_refl.
    replace (isEqual _ _) with true; [reflexivity|].
    symmetry. now apply isEqual_true. }
  split; [exact Htrig|].
  subst db'. unfold finalDB, cascadeDB. rewrite <- Hu, Htrig.
  cbn [milestones timeline]. split; [reflexivity|].
  rewrite persisted_rows. split; [|intros Hord].
  - apply Forall2_map_r. intros r _ Hne. unfold persistedRow.
    destruct (Z.eqb_spec (Milestone.id r) (Milestone.id updated)); [congruence|].
    now destruct r.
  - apply Forall2_map_r. intros r _ Hne. unfold persistedRow.
    destruct (Z.eqb_spec (Milestone.id r) (Milestone.id updated)); [congruence|].
    unfold reindexedOrder. rewrite Hord, Z.eqb_refl. apply set_order_same.
Qed.

Lemma no_cascade_without_date_change_witness :
  timeline (finalDB 0 (sampleRequest 2 (onlyOrder 1)) rowA2 twoRows)
  = timeline twoRows.
Proof.
  destruct (no_cascade_without_date_change
              0 (sampleRequest 2 (onlyOrder 1)) twoRows rowA2
              (resolved 0 (sampleRequest 2 (onlyOrder 1)) rowA2)
              (finalDB 0 (sampleRequest 2 (onlyOrder 1)) rowA2 twoRows)
              ltac:(apply update_run; reflexivity) eq_refl eq_refl)
    as [_ [Htl _]].
  exact Htl.
Defined.

(** C9, as stated, fails.  Moving the second of two milestones to order 1
    changes nothing but its order, its completion date and duration are the
    stored ones, and yet the row that was first, which now comes after the
    edited milestone, is written: its order becomes 2. *)
Lemma order_only_edit_writes_a_downstream_row :
  exists original updated db',
    update 0 (sampleRequest 2 (onlyOrder 1)) twoRows
    = (Resolved (original, updated), db')
    /\ Milestone.completionDate updated = Milestone.completionDate original
    /\ Milestone.duration updated = Milestone.duration original
    /\ exists r r', nth_error (milestones twoRows) 0 = Some r
                    /\ nth_error (milestones db') 0 = Some r'
                    /\ Milestone.id r = 1 /\ Milestone.id r' = 1
                    /\ Milestone.id r <> Milestone.id updated
                    /\ isDownstream updated r' = true
                    /\ Milestone.order r = 1 /\ Milestone.order r' = 2
                    /\ r' <> r.
Proof.
  eexists _, _, _. split; [vm_compute; reflexivity|].
  split; [reflexivity|]. split; [reflexivity|].
  eexists _, _. split; [reflexivity|]. split; [reflexivity|].
  repeat split; try reflexivity; discriminate.
Qed.

(** C10.  When the milestone of the request has a completion date and the
    request supplies null for it, without asking for the status COMPLETED:
    the request is accepted, the persisted completion date is null, the
    merge-time flag [completionDateChanged] is false and the persisted
    status is the requested one if any, the stored one otherwise; still the
    cascade is triggered, and in the final store a milestone after the
    edited one that is not hidden, while every other milestone after the
    edited one up to its order is hidden, is ACTIVE.  Ids are the primary
    key of the table. *)
Theorem clearing_completionDate_cascades now req db milestone c :
  NoDup (map Milestone.id (milestones db)) ->
  findMilestone req db = Some milestone ->
  Milestone.completionDate milestone = Some c ->
  Param.completionDate (Request.param req) = Some None ->
  Param.status (Request.param req) <> Some MILESTONE_STATUS.COMPLETED ->
  exists updated db',
    update now req db = (Resolved (milestone, updated), db')
    /\ Milestone.completionDate updated = None
    /\ completionDateChanged milestone (entityOfRequest req) = false
    /\ Milestone.status updated
       = orElse (Param.status (Request.param req)) (Milestone.status milestone)
    /\ cascadeTriggered milestone updated = true
    /\ (forall m',
          In m' (milestones db') ->
          isDownstream updated m' = true ->
          Milestone.hidden m' = false ->
          (forall r, In r (milestones db') -> isDownstream updated r = true ->
                     r <> m' -> Milestone.order r <= Milestone.order m' ->
                     Milestone.hidden r = true) ->
          Milestone.status m' = MILESTONE_STATUS.ACTIVE).
Proof.
  intros Hnd Hfind Hstored Hnull Hstatus.
  assert (Hval : completionBeforeStart milestone (entityOfRequest req) = false).
  { unfold completionBeforeStart. cbn [entityOfRequest Entity.completionDate].
    now rewrite Hnull. }
  assert (Hflag : completionDateChanged milestone (entityOfRequest req) = false).
  { unfold completionDateChanged. cbn [entityOfRequest Entity.completionDate].
    now rewrite Hnull. }
  assert (Htrans : requestedTransition milestone (entityOfRequest req)
                     MILESTONE_STATUS.COMPLETED = false).
  { unfold requestedTransition. cbn [entityOfRequest Entity.status].
    destruct (Param.status (Request.param req)) as [s|]; cbn [orElse].
    - replace (String.eqb s MILESTONE_STATUS.COMPLETED) with false.
      + apply andb_false_r.
      + symmetry. apply String.eqb_neq. congruence.
    - apply andb_false_r. }
  set (updated := resolved now req milestone).
  assert (Hcd : Milestone.completionDate updated = None).
  { unfold updated. rewrite resolved_completionDate, Htrans, Hnull. reflexivity. }
  assert (Htrig : cascadeTriggered milestone updated = true).
  { unfold cascadeTriggered. rewrite Hstored, Hcd. reflexivity. }
  exists updated, (finalDB now req milestone db).
  split; [now apply update_run|]. split; [exact Hcd|]. split; [exact Hflag|].
  split.
  { unfold updated. rewrite resolved_status, Hflag, andb_false_r. reflexivity. }
  split; [exact Htrig|].
  unfold finalDB, cascadeDB. fold updated. rewrite Htrig. cbn [milestones].
  intros m'. apply cascade_activates_in_store.
  - unfold updated. now rewrite store_ids_kept.
  - rewrite Hstored, Hcd. discriminate.
Qed.

Lemma clearing_completionDate_cascades_witness :
  exists updated db' m3,
    update 0 (sampleRequest 1 (onlyCompletionDate None)) scenarioE
    = (Resolved (rowE1, updated), db')
    /\ Milestone.completionDate updated = None
    /\ Milestone.status updated = MILESTONE_STATUS.PLANNED
    /\ nth_error (milestones db') 2 = Some m3
    /\ Milestone.id m3 = 3
    /\ Milestone.status m3 = MILESTONE_STATUS.ACTIVE.
Proof.
  destruct (clearing_completionDate_cascades
              0 (sampleRequest 1 (onlyCompletionDate None)) scenarioE rowE1
              (utcDate 2024 1 5))
    as [updated [db' [Hrun [Hcd [_ [Hst [_ Hact]]]]]]];
    try reflexivity; try discriminate; [distinct_ids|].
  pose proof Hrun as Hdb.
  rewrite (update_run 0 (sampleRequest 1 (onlyCompletionDate None)) scenarioE
             rowE1 eq_refl eq_refl) in Hdb.
  injection Hdb as Hu Hdb. subst updated db'.
  eexists _, _, _. split; [exact Hrun|]. split; [exact Hcd|].
  split; [exact Hst|]. split; [vm_compute; reflexivity|].
  split; [reflexivity|].
  apply Hact.
  - vm_compute. tauto.
  - reflexivity.
  - reflexivity.
  - intros r Hr Hdown Hne _. vm_compute in Hr.
    destruct Hr as [<-|[<-|[<-|[]]]].
    + vm_compute in Hdown. discriminate.
    + reflexivity.
    + exfalso. apply Hne. reflexivity.
Defined.

(* ------------------------------------------------------------------ *)
(** * Further properties of the handlers *)

(* ------------------------------------------------------------------ *)
(** ** The store after the saves, row by row *)

Lemma find_id_none ms i :
  ~ In i (map Milestone.id ms) ->
  find (fun m => Milestone.id m =? i) ms = None.
Proof.
  induction ms as [|m ms IH]; simpl; intros H; [reflexivity|].
  destruct (Z.eqb_spec (Milestone.id m) i); [exfalso; auto|]. apply IH. tauto.
Qed.

Lemma find_id_self ms m :
  NoDup (map Milestone.id ms) -> In m ms ->
  find (fun m' => Milestone.id m' =? Milestone.id m) ms = Some m.
Proof.
  induction ms as [|a ms IH]; simpl; intros Hnd Hin; [contradiction|].
  inversion Hnd as [|? ? Hnotin Hnd']; subst.
  destruct Hin as [->|Hin]; [now rewrite Z.eqb_refl|].
  destruct (Z.eqb_spec (Milestone.id a) (Milestone.id m)) as [E|]; [|auto].
  exfalso. apply Hnotin. rewrite E. now apply in_map.
Qed.

Lemma find_id_some ms i m :
  find (fun m' => Milestone.id m' =? i) ms = Some m ->
  In m ms /\ Milestone.id m = i.
Proof.
  intros H. apply find_some in H. destruct H as [Hin H].
  apply Z.eqb_eq in H. auto.
Qed.

Lemma savedVersion_cons m ms r :
  savedVersion (m :: ms) r
  = if Milestone.id r =? Milestone.id m then m else savedVersion ms r.
Proof.
  unfold savedVersion. simpl. rewrite (Z.eqb_sym (Milestone.id m)).
  destruct (Milestone.id r =? Milestone.id m); reflexivity.
Qed.

Lemma savedVersion_fresh ms r :
  ~ In (Milestone.id r) (map Milestone.id ms) -> savedVersion ms r = r.
Proof. intros H. unfold savedVersion. now rewrite find_id_none. Qed.

(** Saving milestones of distinct ids replaces each row by its saved
    version. *)
Lemma writeAll_as_map ms rows :
  NoDup (map Milestone.id ms) ->
  writeAll ms rows = map (savedVersion ms) rows.
Proof.
  revert rows. induction ms as [|m ms IH]; intros rows Hnd.
  - unfold writeAll, savedVersion. simpl. now rewrite map_id.
  - inversion Hnd as [|? ? Hnotin Hnd']; subst.
    change (writeAll (m :: ms) rows) with (writeAll ms (writeRow m rows)).
    rewrite IH by assumption. unfold writeRow. rewrite map_map.
    apply map_ext. intros r. rewrite savedVersion_cons.
    destruct (Milestone.id r =? Milestone.id m); [|reflexivity].
    now apply savedVersion_fresh.
Qed.

Lemma savedVersion_id ms r :
  Milestone.id (savedVersion ms r) = Milestone.id r.
Proof.
  unfold savedVersion.
  destruct (find _ ms) as [m|] eqn:E; [|reflexivity].
  now apply find_id_some in E.
Qed.

Lemma savedVersion_cases ms r :
  (In (savedVersion ms r) ms /\ Milestone.id (savedVersion ms r) = Milestone.id r)
  \/ (savedVersion ms r = r /\ ~ In (Milestone.id r) (map Milestone.id ms)).
Proof.
  unfold savedVersion.
  destruct (find _ ms) as [m|] eqn:E.
  - left. now apply find_id_some in E.
  - right. split; [reflexivity|]. intros Hin. apply in_map_iff in Hin.
    destruct Hin as [m [Hm Hin]].
    apply (find_none _ _ E) in Hin. apply Z.eqb_neq in Hin. congruence.
Qed.

(** The saved version of a row of the store has its key. *)
Lemma savedVersion_key o u rows r :
  NoDup (map Milestone.id rows) -> In r rows ->
  key (savedVersion (savedMilestones o u rows) r) = key r.
Proof.
  intros Hnd Hr.
  destruct (savedVersion_cases (savedMilestones o u rows) r) as [[Hin Hid]|[-> _]];
    [|reflexivity].
  destruct (savedMilestones_source _ _ _ _ Hin) as [x [Hx [_ Hk]]].
  rewrite <- Hk. f_equal.
  apply (NoDup_map_inj Milestone.id rows); auto.
  apply key_eq in Hk. destruct Hk as [Hk _]. congruence.
Qed.

(** A row that does not come after the edited milestone is not saved. *)
Lemma savedVersion_not_downstream o u rows r :
  NoDup (map Milestone.id rows) -> In r rows -> isDownstream u r = false ->
  savedVersion (savedMilestones o u rows) r = r.
Proof.
  intros Hnd Hr Hdown.
  destruct (savedVersion_cases (savedMilestones o u rows) r) as [[Hin Hid]|[E _]];
    [|exact E].
  destruct (savedMilestones_source _ _ _ _ Hin) as [x [Hx [Hxd Hk]]].
  assert (x = r).
  { apply (NoDup_map_inj Milestone.id rows); auto.
    apply key_eq in Hk. destruct Hk as [Hk _]. congruence. }
  subst x. congruence.
Qed.

Lemma insertByOrder_map (f : Milestone.t -> Milestone.t) m l :
  Milestone.order (f m) = Milestone.order m ->
  Forall (fun x => Milestone.order (f x) = Milestone.order x) l ->
  insertByOrder (f m) (map f l) = map f (insertByOrder m l).
Proof.
  intros Hm. induction 1 as [|x l Hx _ IH]; simpl; [reflexivity|].
  rewrite Hm, Hx. destruct (Milestone.order m <=? Milestone.order x); simpl;
    [reflexivity|]. now rewrite IH.
Qed.

Lemma sortByOrder_map (f : Milestone.t -> Milestone.t) l :
  Forall (fun x => Milestone.order (f x) = Milestone.order x) l ->
  sortByOrder (map f l) = map f (sortByOrder l).
Proof.
  induction 1 as [|x l Hx Hl IH]; simpl; [reflexivity|].
  rewrite IH. apply insertByOrder_map; [exact Hx|].
  rewrite Forall_forall in *. intros y Hy. apply Hl.
  eapply Permutation_in; [apply sortByOrder_perm|exact Hy].
Qed.

Lemma savedVersion_positional ms l :
  NoDup (map Milestone.id ms) -> map Milestone.id ms = map Milestone.id l ->
  map (savedVersion ms) l = ms.
Proof.
  revert l. induction ms as [|m ms IH]; intros [|x l] Hnd Hids;
    try discriminate; [reflexivity|].
  simpl in Hids. injection Hids as Hx Hl.
  inversion Hnd as [|? ? Hnotin Hnd']; subst. simpl. f_equal.
  - rewrite savedVersion_cons, Hx, Z.eqb_refl. reflexivity.
  - rewrite <- (IH l Hnd' Hl) at 2. apply map_ext_in. intros y Hy.
    rewrite savedVersion_cons.
    destruct (Z.eqb_spec (Milestone.id y) (Milestone.id m)) as [E|];
      [|reflexivity].
    exfalso. apply Hnotin. rewrite Hl, <- E. now apply in_map.
Qed.

(** Read back from the store, the milestones after the edited one are the
    saved ones. *)
Lemma coming_after_cascade o u rows :
  NoDup (map Milestone.id rows) ->
  comingMilestones u (writeAll (savedMilestones o u rows) rows)
  = savedMilestones o u rows.
Proof.
  intros Hnd.
  assert (Hids : NoDup (map Milestone.id (savedMilestones o u rows))).
  { rewrite savedMilestones_id. now apply comingMilestones_NoDup. }
  rewrite writeAll_as_map by exact Hids.
  unfold comingMilestones at 1. rewrite filter_map_comm.
  rewrite (filter_ext_in _ (isDownstream u)).
  2:{ intros r Hr. apply isDownstream_key. now apply savedVersion_key. }
  rewrite sortByOrder_map.
  2:{ rewrite Forall_forall. intros r Hr. apply filter_In in Hr.
      destruct Hr as [Hr _].
      pose proof (savedVersion_key o u rows r Hnd Hr) as Hk.
      apply key_eq in Hk. tauto. }
  fold (comingMilestones u rows).
  apply savedVersion_positional; [exact Hids|apply savedMilestones_id].
Qed.

(* ------------------------------------------------------------------ *)
(** ** Running the cascade again *)

Lemma set_status_same m : Milestone.set_status (Milestone.status m) m = m.
Proof. now destruct m. Qed.

(** On a milestone whose dates are already those of the cursor, the
    callback can only activate. *)
Lemma cascadeStep_settled u c s f m :
  Milestone.startDate m = s ->
  Milestone.endDate m = addDays s (Milestone.duration m - 1) ->
  cascadeStep u c s f m
  = if negb f && c && negb (Milestone.hidden m)
    then (Milestone.set_status MILESTONE_STATUS.ACTIVE m, true)
    else (m, f).
Proof.
  intros Hs He. unfold cascadeStep, isEqualDate.
  rewrite Hs, Z.eqb_refl. cbn [negb]. rewrite He, Z.eqb_refl. reflexivity.
Qed.

Lemma cascadeStep_idem u u' c s f m :
  cascadeStep u' c s f (fst (cascadeStep u c s f m)) = cascadeStep u c s f m.
Proof.
  pose proof (cascadeStep_status u c s f m) as Hst.
  pose proof (cascadeStep_found u c s f m) as Hf.
  pose proof (cascadeStep_hidden u c s f m) as Hh.
  pose proof (cascadeStep_startDate u c s f m) as Hs.
  pose proof (cascadeStep_endDate u c s f m) as He.
  pose proof (cascadeStep_duration u c s f m) as Hd.
  destruct (cascadeStep u c s f m) as [m' f']. cbn [fst snd] in *.
  rewrite cascadeStep_settled by congruence. rewrite Hh.
  destruct f, c, (Milestone.hidden m); cbn in *; subst f';
    try reflexivity.
  rewrite <- Hst. now rewrite set_status_same.
Qed.

Lemma cascadeLoop_idem u u' c s f l :
  cascadeLoop u' c s f (cascadeLoop u c s f l) = cascadeLoop u c s f l.
Proof.
  revert s f. induction l as [|m rest IH]; intros s f; [reflexivity|].
  rewrite (cascadeLoop_cons u c s f m rest), cascadeLoop_cons.
  rewrite cascadeStep_idem. now rewrite IH.
Qed.

Lemma savedVersion_idem ms r :
  NoDup (map Milestone.id ms) ->
  savedVersion ms (savedVersion ms r) = savedVersion ms r.
Proof.
  intros Hnd. destruct (savedVersion_cases ms r) as [[Hin _]|[E Hfresh]].
  - unfold savedVersion at 1. now rewrite find_id_self.
  - rewrite E. now apply savedVersion_fresh.
Qed.

(** X10.  Running the cascade a second time writes nothing. *)
Theorem cascade_twice_is_cascade_once o u db :
  NoDup (map Milestone.id (milestones db)) ->
  updateComingMilestones o u (snd (updateComingMilestones o u db))
  = updateComingMilestones o u db.
Proof.
  intros Hnd. rewrite (updateComingMilestones_run o u db). cbn [snd].
  rewrite updateComingMilestones_run. cbn [milestones timeline].
  assert (Hids : NoDup (map Milestone.id (savedMilestones o u (milestones db)))).
  { rewrite savedMilestones_id. now apply comingMilestones_NoDup. }
  assert (E : savedMilestones o u
                (writeAll (savedMilestones o u (milestones db)) (milestones db))
              = savedMilestones o u (milestones db)).
  { unfold savedMilestones at 1. rewrite coming_after_cascade by exact Hnd.
    apply cascadeLoop_idem. }
  rewrite E. f_equal. f_equal.
  rewrite !writeAll_as_map by exact Hids. rewrite map_map.
  apply map_ext. intros r. now apply savedVersion_idem.
Qed.

(** X11.  On milestones that already follow one another from the cursor, a
    cascade without a completion-date change saves every row as it is. *)
Theorem cascade_keeps_contiguous_rows u s f l :
  chained s l -> cascadeLoop u false s f l = l.
Proof.
  revert s f. induction l as [|m rest IH]; intros s f H; [reflexivity|].
  destruct H as [Hs [He Hrest]].
  rewrite cascadeLoop_cons, cascadeStep_settled by assumption.
  rewrite andb_false_r. cbn [fst snd]. f_equal. now apply IH.
Qed.

Lemma cascadeLoop_Forall2 (R : Milestone.t -> Milestone.t -> Prop) u c :
  (forall s f m, R m (fst (cascadeStep u c s f m))) ->
  forall s f l, Forall2 R l (cascadeLoop u c s f l).
Proof.
  intros HR s f l. revert s f. induction l as [|m rest IH]; intros s f.
  - constructor.
  - rewrite cascadeLoop_cons. constructor; auto.
Qed.

Lemma cascadeStep_columns u c s f m :
  let m' := fst (cascadeStep u c s f m) in
  m' = Milestone.set_status (Milestone.status m')
         (Milestone.set_updatedBy (Milestone.updatedBy m')
            (Milestone.set_endDate (Milestone.endDate m')
               (Milestone.set_startDate (Milestone.startDate m') m)))
  /\ Milestone.updatedBy m'
     = if isEqualDate (Milestone.startDate m) (Milestone.startDate m')
          && isEqualDate (Milestone.endDate m) (Milestone.endDate m')
       then Milestone.updatedBy m else u.
Proof.
  cbv zeta. rewrite cascadeStep_startDate, cascadeStep_endDate.
  unfold cascadeStep, isEqualDate. destruct m; cbn.
  destruct (Z.eqb_spec startDate s); cbn;
    match goal with
    | |- context [endDate =? ?e] => destruct (Z.eqb_spec endDate e); cbn
    end;
    destruct (negb f && c && negb hidden); cbn; subst; auto.
Qed.

(** X12.  The cascade writes four columns at most, and stamps the editor on
    the rows whose dates it changed, and on those only. *)
Theorem cascade_stamps_the_rows_it_moves o u rows :
  Forall2
    (fun m m' =>
       m' = Milestone.set_status (Milestone.status m')
              (Milestone.set_updatedBy (Milestone.updatedBy m')
                 (Milestone.set_endDate (Milestone.endDate m')
                    (Milestone.set_startDate (Milestone.startDate m') m)))
       /\ Milestone.updatedBy m'
          = if isEqualDate (Milestone.startDate m) (Milestone.startDate m')
               && isEqualDate (Milestone.endDate m) (Milestone.endDate m')
            then Milestone.updatedBy m else Milestone.updatedBy u)
    (comingMilestones u rows) (savedMilestones o u rows).
Proof.
  unfold savedMilestones. apply cascadeLoop_Forall2.
  intros s f m. apply cascadeStep_columns.
Qed.

(* ------------------------------------------------------------------ *)
(** ** The outcomes of a request *)

Lemma update_cases now req db :
  update now req db
  = match findMilestone req db with
    | None => (Rejected 404, db)
    | Some m =>
        if completionBeforeStart m (entityOfRequest req)
        then (Rejected 422, db)
        else (Resolved (m, resolved now req m), finalDB now req m db)
    end.
Proof.
  destruct (findMilestone req db) as [m|] eqn:Hfind.
  - destruct (completionBeforeStart m (entityOfRequest req)) eqn:Hval.
    + unfold update, transaction, work, bind, Milestone_findOne.
      unfold findMilestone in Hfind. now rewrite Hfind, Hval.
    + now apply update_run.
  - unfold update, transaction, work, bind, Milestone_findOne.
    unfold findMilestone in Hfind. now rewrite Hfind.
Qed.

Lemma findMilestone_none req db :
  findMilestone req db = None <->
  forall r, In r (milestones db) ->
            ~ (Milestone.timelineId r = Request.timelineId req
               /\ Milestone.id r = Request.milestoneId req).
Proof.
  unfold findMilestone. split.
  - intros H r Hr [Ht Hi]. apply (find_none _ _ H) in Hr.
    rewrite Ht, Hi, !Z.eqb_refl in Hr. discriminate.
  - intros H. destruct (find _ _) as [m|] eqn:E; [|reflexivity].
    apply find_some in E. destruct E as [Hin E].
    apply andb_prop in E. destruct E as [E1 E2].
    apply Z.eqb_eq in E1, E2. exfalso. now apply (H m Hin).
Qed.

(** X1.  404 exactly when no row has both the timeline and the id. *)
Theorem not_found_iff_no_row_of_the_timeline now req db :
  fst (update now req db) = Rejected 404 <->
  forall r, In r (milestones db) ->
            ~ (Milestone.timelineId r = Request.timelineId req
               /\ Milestone.id r = Request.milestoneId req).
Proof.
  rewrite <- findMilestone_none, update_cases.
  destruct (findMilestone req db) as [m|]; [|tauto].
  destruct (completionBeforeStart m (entityOfRequest req)); cbn;
    split; discriminate.
Qed.

(** X3.  The rows of the table, in their order, are the same after any
    request: the handler inserts, deletes and moves none. *)
Theorem update_keeps_the_ids now req db :
  map Milestone.id (milestones (snd (update now req db)))
  = map Milestone.id (milestones db).
Proof.
  rewrite update_cases.
  destruct (findMilestone req db) as [m|]; [|reflexivity].
  destruct (completionBeforeStart m (entityOfRequest req)); [reflexivity|].
  cbn [snd]. unfold finalDB, cascadeDB.
  destruct (cascadeTriggered m (resolved now req m)); cbn [milestones].
  - rewrite map_id_writeAll. apply store_ids_kept.
  - apply store_ids_kept.
Qed.

(** X4.  The validation reads the stored start date, not the resolved one. *)
Theorem validation_reads_the_stored_startDate now req db m c :
  findMilestone req db = Some m ->
  Param.status (Request.param req) = Some MILESTONE_STATUS.ACTIVE ->
  Milestone.status m <> MILESTONE_STATUS.ACTIVE ->
  Param.completionDate (Request.param req) = Some (Some c) ->
  Milestone.startDate m <= c < utcMidnight now ->
  exists updated db',
    update now req db = (Resolved (m, updated), db')
    /\ Milestone.status updated = MILESTONE_STATUS.ACTIVE
    /\ Milestone.startDate updated = utcMidnight now
    /\ Milestone.completionDate updated = Some c
    /\ c < Milestone.startDate updated.
Proof.
  intros Hfind Hst Hne Hc [Hlo Hhi].
  assert (Hval : completionBeforeStart m (entityOfRequest req) = false).
  { unfold completionBeforeStart. cbn [entityOfRequest Entity.completionDate].
    rewrite Hc. apply Z.ltb_ge. exact Hlo. }
  assert (Hch : statusChanged m (entityOfRequest req) = true).
  { apply (statusChanged_true _ _ MILESTONE_STATUS.ACTIVE);
      [exact Hst|discriminate|congruence]. }
  assert (Hact : requestedTransition m (entityOfRequest req)
                   MILESTONE_STATUS.ACTIVE = true).
  { unfold requestedTransition. rewrite Hch.
    cbn [entityOfRequest Entity.status]. rewrite Hst. reflexivity. }
  assert (Hdone : requestedTransition m (entityOfRequest req)
                    MILESTONE_STATUS.COMPLETED = false).
  { unfold requestedTransition. rewrite Hch.
    cbn [entityOfRequest Entity.status]. rewrite Hst. reflexivity. }
  assert (Hs : Milestone.startDate (resolved now req m) = utcMidnight now)
    by (now rewrite resolved_startDate, Hact).
  exists (resolved now req m), (finalDB now req m db).
  split; [now apply update_run|]. split.
  { rewrite resolved_status, Hch. cbn [negb andb]. now rewrite Hst. }
  split; [exact Hs|]. split.
  { rewrite resolved_completionDate, Hdone, Hc. reflexivity. }
  rewrite Hs. exact Hhi.
Qed.

(* ------------------------------------------------------------------ *)
(** ** The rows an accepted request writes *)

Lemma final_rows now req db m :
  NoDup (map Milestone.id (milestones db)) ->
  let u := resolved now req m in
  let rows1 := reindexRows m u (writeRow u (milestones db)) in
  milestones (finalDB now req m db)
  = map (fun r =>
           let r1 := persistedRow m u (slotOccupied u (milestones db)) r in
           if cascadeTriggered m u
           then savedVersion (savedMilestones m u rows1) r1
           else r1)
        (milestones db).
Proof.
  intros Hnd u rows1. unfold finalDB, cascadeDB. fold u. fold rows1.
  assert (E : rows1
              = map (persistedRow m u (slotOccupied u (milestones db)))
                    (milestones db)) by apply persisted_rows.
  destruct (cascadeTriggered m u); cbn [milestones]; [|exact E].
  rewrite writeAll_as_map.
  - rewrite E at 2. now rewrite map_map.
  - rewrite savedMilestones_id. apply comingMilestones_NoDup.
    unfold rows1, u. now rewrite store_ids_kept.
Qed.

Lemma persistedRow_in now req db m r :
  In r (milestones db) ->
  In (persistedRow m (resolved now req m)
        (slotOccupied (resolved now req m) (milestones db)) r)
     (reindexRows m (resolved now req m)
        (writeRow (resolved now req m) (milestones db))).
Proof. intros Hr. rewrite persisted_rows. now apply in_map. Qed.

(** X5.  The rows of the other timelines are left as they are. *)
Theorem other_timelines_untouched now req db original updated db' :
  NoDup (map Milestone.id (milestones db)) ->
  update now req db = (Resolved (original, updated), db') ->
  Forall2 (fun r r' =>
             Milestone.timelineId r <> Request.timelineId req -> r' = r)
          (milestones db) (milestones db').
Proof.
  intros Hnd Hrun.
  apply update_resolved_inv in Hrun. destruct Hrun as [Hfind [_ [Hu Hdb]]].
  apply findMilestone_some in Hfind. destruct Hfind as [Hin [Ht Hi]].
  subst db'. rewrite final_rows by exact Hnd. rewrite <- Hu.
  apply Forall2_map_r. intros r Hr Hother. cbv zeta.
  set (rows1 := reindexRows original updated (writeRow updated (milestones db))).
  assert (Hne : Milestone.id r <> Milestone.id updated).
  { intros E. apply Hother.
    assert (r = original); [|congruence].
    apply (NoDup_map_inj Milestone.id (milestones db)); auto.
    rewrite E, Hu. apply resolved_id. }
  assert (Hut : Milestone.timelineId updated = Request.timelineId req)
    by (rewrite Hu; apply resolved_timelineId).
  assert (E1 : persistedRow original updated
                 (slotOccupied updated (milestones db)) r = r).
  { unfold persistedRow.
    destruct (Z.eqb_spec (Milestone.id r) (Milestone.id updated)); [congruence|].
    unfold reindexedOrder, isOther.
    destruct (Z.eqb_spec (Milestone.timelineId r) (Milestone.timelineId updated));
      [congruence|].
    rewrite andb_false_r. apply set_order_same. }
  rewrite E1. destruct (cascadeTriggered original updated); [|reflexivity].
  apply savedVersion_not_downstream.
  - unfold rows1. rewrite Hu, store_ids_kept. exact Hnd.
  - rewrite <- E1. unfold rows1. rewrite Hu. now apply persistedRow_in.
  - unfold isDownstream.
    destruct (Z.eqb_spec (Milestone.timelineId r) (Milestone.timelineId updated));
      [congruence|reflexivity].
Qed.

(** X6.  A milestone that does not come after the edited one keeps every
    column but, possibly, its order. *)
Theorem rows_not_downstream_keep_their_dates now req db original updated db' :
  NoDup (map Milestone.id (milestones db)) ->
  update now req db = (Resolved (original, updated), db') ->
  Forall2 (fun r r' =>
             Milestone.id r <> Milestone.id updated ->
             isDownstream updated r' = false ->
             r' = Milestone.set_order (Milestone.order r') r)
          (milestones db) (milestones db').
Proof.
  intros Hnd Hrun.
  apply update_resolved_inv in Hrun. destruct Hrun as [Hfind [_ [Hu Hdb]]].
  subst db'. rewrite final_rows by exact Hnd. rewrite <- Hu.
  apply Forall2_map_r. intros r Hr Hne. cbv zeta.
  set (rows1 := reindexRows original updated (writeRow updated (milestones db))).
  set (r1 := persistedRow original updated (slotOccupied updated (milestones db)) r).
  assert (E1 : r1 = Milestone.set_order (Milestone.order r1) r).
  { unfold r1, persistedRow.
    destruct (Z.eqb_spec (Milestone.id r) (Milestone.id updated)); [congruence|].
    now destruct r. }
  destruct (cascadeTriggered original updated); [|intros _; exact E1].
  assert (Hnd1 : NoDup (map Milestone.id rows1))
    by (unfold rows1; rewrite Hu, store_ids_kept; exact Hnd).
  assert (Hin1 : In r1 rows1)
    by (unfold r1, rows1; rewrite Hu; now apply persistedRow_in).
  intros Hdown.
  rewrite <- (isDownstream_key updated r1) in Hdown
    by (symmetry; now apply savedVersion_key).
  rewrite savedVersion_not_downstream by assumption. exact E1.
Qed.

(** X7.  The milestone of the response and of the event is the row the store
    holds under its id when the request completes. *)
Theorem updated_is_the_stored_row now req db original updated db' :
  NoDup (map Milestone.id (milestones db)) ->
  update now req db = (Resolved (original, updated), db') ->
  In original (milestones db)
  /\ Milestone.id updated = Milestone.id original
  /\ In updated (milestones db')
  /\ forall r', In r' (milestones db') ->
                Milestone.id r' = Milestone.id updated -> r' = updated.
Proof.
  intros Hnd Hrun.
  pose proof (update_keeps_the_ids now req db) as Hids.
  rewrite Hrun in Hids. cbn [snd] in Hids.
  apply update_resolved_inv in Hrun. destruct Hrun as [Hfind [_ [Hu Hdb]]].
  pose proof (updated_in_store now req db original Hfind) as Hin1.
  apply findMilestone_some in Hfind. destruct Hfind as [Hin _].
  rewrite <- Hu in Hin1.
  assert (Hstored : In updated (milestones db')).
  { subst db'. unfold finalDB, cascadeDB. rewrite <- Hu.
    destruct (cascadeTriggered original updated); cbn [milestones];
      [|exact Hin1].
    set (rows1 := reindexRows original updated
                    (writeRow updated (milestones db))) in *.
    assert (Hnd1 : NoDup (map Milestone.id rows1))
      by (unfold rows1; rewrite Hu, store_ids_kept; exact Hnd).
    rewrite writeAll_as_map
      by (rewrite savedMilestones_id; now apply comingMilestones_NoDup).
    apply in_map_iff. exists updated. split; [|exact Hin1].
    apply savedVersion_not_downstream; auto.
    unfold isDownstream. rewrite Z.ltb_irrefl. apply andb_false_r. }
  split; [exact Hin|]. split; [rewrite Hu; apply resolved_id|].
  split; [exact Hstored|].
  intros r' Hr' E. apply (NoDup_map_inj Milestone.id (milestones db')); auto.
  now rewrite Hids.
Qed.


(** X16.  Row by row: unless the request activates the milestone, and with
    a duration of at least 1 when it supplies one, an accepted request
    leaves the end date of a milestone equal to its start date plus
    [duration - 1] days whenever it was so before, whatever the other rows
    are; this holds of the edited milestone, of the cascaded ones and of the
    others. *)
Theorem consistent_rows_stay_consistent now req db original updated db' :
  NoDup (map Milestone.id (milestones db)) ->
  update now req db = (Resolved (original, updated), db') ->
  (forall d, Param.duration (Request.param req) = Some d -> 1 <= d) ->
  requestedTransition original (entityOfRequest req) MILESTONE_STATUS.ACTIVE
  = false ->
  Forall2 (fun r r' => datesConsistent r -> datesConsistent r')
          (milestones db) (milestones db').
Proof.
  intros Hnd Hrun Hpos Hact.
  apply update_resolved_inv in Hrun. destruct Hrun as [Hfind [_ [Hu Hdb]]].
  apply findMilestone_some in Hfind. destruct Hfind as [Hin _].
  subst db'. rewrite final_rows by exact Hnd. rewrite <- Hu.
  apply Forall2_map_r. intros r Hr Hcons. cbv zeta.
  set (rows1 := reindexRows original updated (writeRow updated (milestones db))).
  set (r1 := persistedRow original updated (slotOccupied updated (milestones db)) r).
  assert (H1 : datesConsistent r1).
  { unfold r1, persistedRow.
    destruct (Z.eqb_spec (Milestone.id r) (Milestone.id updated)) as [E|E].
    - assert (r = original).
      { apply (NoDup_map_inj Milestone.id (milestones db)); auto.
        rewrite E, Hu. apply resolved_id. }
      subst r. unfold datesConsistent. rewrite Hu at 1.
      rewrite (resolved_endDate_from_stored_start now req original Hpos Hcons).
      rewrite Hu, resolved_startDate, Hact. reflexivity.
    - now apply datesConsistent_set_order. }
  destruct (cascadeTriggered original updated); [|exact H1].
  destruct (savedVersion_cases (savedMilestones original updated rows1) r1)
    as [[Hsaved _]|[-> _]]; [|exact H1].
  pose proof (chained_consistent _ _
                (cascadeLoop_chained (Milestone.updatedBy updated)
                   (negb (isEqual (Milestone.completionDate original)
                                  (Milestone.completionDate updated)))
                   (nextStartDate updated) false
                   (comingMilestones updated rows1))) as Hc.
  rewrite Forall_forall in Hc. now apply Hc.
Qed.

(* ------------------------------------------------------------------ *)
(** ** Counting the calls of the persistence layer *)

Lemma spent_0 r : spent r 0 = r.
Proof. destruct r as [n|]; simpl; [|reflexivity]. now rewrite Nat.sub_0_r. Qed.

Lemma spent_add r k1 k2 : spent (spent r k1) k2 = spent r (k1 + k2).
Proof. destruct r as [n|]; simpl; [|reflexivity]. f_equal. lia. Qed.

Lemma enough_add r k1 k2 :
  enough r (k1 + k2) = enough r k1 && enough (spent r k1) k2.
Proof.
  destruct r as [n|]; simpl; [|reflexivity].
  destruct (Nat.leb_spec (k1 + k2) n), (Nat.leb_spec k1 n),
    (Nat.leb_spec k2 (n - k1)); simpl; try reflexivity; lia.
Qed.

Lemma runs_ret {A} (a : A) db : runs (retF a) db 0 (Done a) db.
Proof.
  intros r. split; intros H.
  - unfold retF. now rewrite spent_0.
  - destruct r; discriminate.
Qed.

Lemma runs_fail {A} err db : runs (@failF A err) db 0 (Failed err) db.
Proof.
  intros r. split; intros H.
  - unfold failF. now rewrite spent_0.
  - destruct r; discriminate.
Qed.

Lemma runs_persist {A} (call : Tx A) db res db' :
  call db = (res, db') -> runs (persist call) db 1 (outcomeOf res) db'.
Proof.
  intros Hcall r. unfold persist. cbn [resolving store]. split; intros H.
  - destruct r as [[|n]|]; simpl in *; try discriminate;
      rewrite Hcall; simpl; [|reflexivity]. now rewrite Nat.sub_0_r.
  - destruct r as [[|n]|]; simpl in *; try discriminate. eauto.
Qed.

Lemma runs_bind {A B} (m : TxF A) (f : A -> TxF B) db k1 a db1 k2 o db2 :
  runs m db k1 (Done a) db1 -> runs (f a) db1 k2 o db2 ->
  runs (bindF m f) db (k1 + k2) o db2.
Proof.
  intros Hm Hf r. unfold bindF. rewrite enough_add.
  destruct (Hm r) as [Hm1 Hm2].
  destruct (enough r k1) eqn:E1.
  - rewrite (Hm1 eq_refl). destruct (Hf (spent r k1)) as [Hf1 Hf2].
    cbn [andb]. split; intros H.
    + rewrite (Hf1 H). now rewrite spent_add.
    + exact (Hf2 H).
  - cbn [andb]. split; intros H; [discriminate|].
    destruct (Hm2 eq_refl) as [db'' ->]. eauto.
Qed.

Lemma runs_bind_failed {A B} (m : TxF A) (f : A -> TxF B) db k err db1 :
  runs m db k (Failed err) db1 -> runs (bindF m f) db k (Failed err) db1.
Proof.
  intros Hm r. unfold bindF. destruct (Hm r) as [Hm1 Hm2]. split; intros H.
  - now rewrite (Hm1 H).
  - destruct (Hm2 H) as [db'' ->]. eauto.
Qed.

Lemma runs_eq {A} (m : TxF A) db k k' o db1 db1' :
  runs m db k o db1 -> k = k' -> db1 = db1' -> runs m db k' o db1'.
Proof. now intros H <- <-. Qed.

Lemma saveAllF_runs ms db :
  runs (saveAllF ms) db (List.length ms) (Done ms)
       (mkDB (writeAll ms (milestones db)) (timeline db)).
Proof.
  revert db. induction ms as [|m rest IH]; intros db.
  - destruct db. apply runs_ret.
  - cbn [saveAllF List.length].
    apply (runs_bind _ _ db 1 m (mkDB (writeRow m (milestones db)) (timeline db))
                     (List.length rest)).
    + exact (runs_persist (milestone_save m) db (Resolved m) _ eq_refl).
    + eapply runs_eq.
      * eapply runs_bind; [apply IH|apply runs_ret].
      * lia.
      * reflexivity.
Qed.

Lemma reindexRows_free o u rows :
  slotOccupied u rows = false -> reindexRows o u rows = rows.
Proof.
  intros E. unfold reindexRows, reindexedOrder. rewrite E, andb_false_r. simpl.
  clear E. induction rows as [|r rows IH]; simpl; [reflexivity|].
  now rewrite set_order_same, IH.
Qed.

Lemma reindexF_runs o u db :
  runs (reindexF o u) db (reindexCalls o u (milestones db)) (Done tt)
       (mkDB (reindexRows o u (milestones db)) (timeline db)).
Proof.
  pose proof (reindex_run o u db) as R.
  unfold reindexF, reindexCalls. unfold reindex in R.
  destruct (Z.eqb_spec (Milestone.order o) (Milestone.order u)) as [E|E].
  - rewrite reindexRows_same_order by exact E. destruct db. apply runs_ret.
  - unfold bind in R. cbn [Milestone_count] in R.
    set (count := Z.of_nat _) in R.
    assert (Hcount : (count =? 0) = negb (slotOccupied u (milestones db)))
      by apply count_zero_iff.
    rewrite Hcount in R.
    assert (Hrest : runs
              (if count =? 0 then retF tt
               else if Milestone.order o <? Milestone.order u
               then persist (Milestone_update (-1) (Milestone.timelineId u)
                               (Milestone.id u) (Milestone.order o + 1)
                               (Milestone.order u))
               else persist (Milestone_update 1 (Milestone.timelineId u)
                               (Milestone.id u) (Milestone.order u)
                               (Milestone.order o - 1)))
              db (if slotOccupied u (milestones db) then 1 else 0)%nat (Done tt)
              (mkDB (reindexRows o u (milestones db)) (timeline db))).
    { rewrite Hcount.
      destruct (slotOccupied u (milestones db)) eqn:Eocc; cbn [negb] in *.
      - destruct (Milestone.order o <? Milestone.order u);
          exact (runs_persist _ db (Resolved tt) _ R).
      - rewrite reindexRows_free by exact Eocc. destruct db. apply runs_ret. }
    eapply runs_eq.
    + exact (runs_bind _ _ db 1 count db _ _ _
               (runs_persist (Milestone_count (Milestone.timelineId u)
                                (Milestone.id u) (Milestone.order u))
                             db (Resolved count) db eq_refl)
               Hrest).
    + destruct (slotOccupied u (milestones db)); reflexivity.
    + reflexivity.
Qed.

Lemma updateComingMilestonesF_runs o u db :
  runs (updateComingMilestonesF o u) db
       (1 + List.length (savedMilestones o u (milestones db)))
       (Done (popOr (savedMilestones o u (milestones db)) u))
       (mkDB (writeAll (savedMilestones o u (milestones db)) (milestones db))
             (timeline db)).
Proof.
  unfold updateComingMilestonesF.
  eapply runs_eq.
  - eapply (runs_bind _ _ db 1 _ db).
    + exact (runs_persist (Milestone_findAll (Milestone.timelineId u)
                                             (Milestone.order u))
                          db (Resolved _) db eq_refl).
    + cbv zeta. eapply runs_bind; [apply saveAllF_runs|apply runs_ret].
  - unfold savedMilestones, comingMilestones, isDownstream. lia.
  - reflexivity.
Qed.

Lemma syncTimelineF_runs last db :
  runs (syncTimelineF last) db
       (if isEqual (Some (Milestone.endDate last)) (Timeline.endDate (timeline db))
        then 0 else 1)%nat
       (Done tt)
       (mkDB (milestones db) (syncedTimeline last (timeline db))).
Proof.
  intros r. unfold syncTimelineF, syncedTimeline. cbn [store].
  destruct (isEqual (Some (Milestone.endDate last))
                    (Timeline.endDate (timeline db))); cbn [negb].
  - destruct db. apply runs_ret.
  - exact (runs_persist (timeline_save _) db (Resolved tt) _ eq_refl r).
Qed.

Lemma cascadeF_runs o u db :
  runs (cascadeF o u) db (cascadeCalls o u db) (Done tt) (cascadeDB o u db).
Proof.
  unfold cascadeF, cascadeCalls, cascadeDB.
  destruct (cascadeTriggered o u); [|apply runs_ret].
  eapply runs_eq.
  - eapply runs_bind; [apply updateComingMilestonesF_runs|].
    apply syncTimelineF_runs.
  - reflexivity.
  - reflexivity.
Qed.

Lemma workF_runs_not_found now req db :
  findMilestone req db = None ->
  runs (workF now req) db 1 (Failed (ApiError 404)) db.
Proof.
  intros Hfind. unfold workF.
  eapply runs_eq.
  - eapply (runs_bind _ _ db 1 None db 0).
    + exact (runs_persist (Milestone_findOne _ _) db (Resolved _) db
               (f_equal (fun o => (Resolved o, db)) Hfind)).
    + apply runs_fail.
  - reflexivity.
  - reflexivity.
Qed.

Lemma workF_runs_invalid now req db m :
  findMilestone req db = Some m ->
  completionBeforeStart m (entityOfRequest req) = true ->
  runs (workF now req) db 1 (Failed (ApiError 422)) db.
Proof.
  intros Hfind Hval. unfold workF.
  eapply runs_eq.
  - eapply (runs_bind _ _ db 1 (Some m) db 0).
    + exact (runs_persist (Milestone_findOne _ _) db (Resolved _) db
               (f_equal (fun o => (Resolved o, db)) Hfind)).
    + rewrite Hval. apply runs_fail.
  - reflexivity.
  - reflexivity.
Qed.

Lemma workF_runs_accepted now req db m :
  findMilestone req db = Some m ->
  completionBeforeStart m (entityOfRequest req) = false ->
  let u := resolved now req m in
  let rows1 := writeRow u (milestones db) in
  runs (workF now req) db
       (2 + reindexCalls m u rows1
        + cascadeCalls m u (mkDB (reindexRows m u rows1) (timeline db)))
       (Done (m, u)) (finalDB now req m db).
Proof.
  intros Hfind Hval u rows1. unfold workF.
  eapply runs_eq.
  - eapply (runs_bind _ _ db 1 (Some m) db).
    + exact (runs_persist (Milestone_findOne _ _) db (Resolved _) db
               (f_equal (fun o => (Resolved o, db)) Hfind)).
    + rewrite Hval.
      eapply (runs_bind _ _ db 1 u (mkDB rows1 (timeline db))).
      * exact (runs_persist (milestone_update m _) db (Resolved u) _ eq_refl).
      * eapply runs_bind; [apply reindexF_runs|].
        eapply runs_bind; [apply cascadeF_runs|apply runs_ret].
  - cbn [milestones timeline]. now rewrite Nat.add_0_r.
  - reflexivity.
Qed.

Lemma transactionF_done {A} (work : TxF A) db k a db' r :
  runs work db k (Done a) db' ->
  transactionF work (mkWorld db r)
  = if enough r (1 + k + 1)
    then (Done a, mkWorld db' (spent r (1 + k + 1)))
    else (Failed PersistenceError, mkWorld db (Some 0%nat)).
Proof.
  intros Hwork.
  assert (H : runs (_ <~ persist (ret tt) ;; a <~ work ;;
                    _ <~ persist (ret tt) ;; retF a)
                   db (1 + k + 1) (Done a) db').
  { eapply runs_eq.
    - eapply (runs_bind _ _ db 1 tt db).
      + exact (runs_persist (ret tt) db (Resolved tt) db eq_refl).
      + eapply runs_bind; [exact Hwork|].
        eapply (runs_bind _ _ db' 1 tt db').
        * exact (runs_persist (ret tt) db' (Resolved tt) db' eq_refl).
        * apply runs_ret.
    - lia.
    - reflexivity. }
  unfold transactionF. destruct (H r) as [H1 H2].
  destruct (enough r (1 + k + 1)).
  - now rewrite (H1 eq_refl).
  - destruct (H2 eq_refl) as [db'' ->]. reflexivity.
Qed.

Lemma transactionF_failed {A} (work : TxF A) db k err db' r :
  runs work db k (Failed err) db' ->
  transactionF work (mkWorld db r)
  = if enough r (1 + k)
    then (Failed err, mkWorld db (spent r (1 + k)))
    else (Failed PersistenceError, mkWorld db (Some 0%nat)).
Proof.
  intros Hwork.
  assert (H : runs (_ <~ persist (ret tt) ;; a <~ work ;;
                    _ <~ persist (ret tt) ;; retF a)
                   db (1 + k) (Failed err) db').
  { eapply (runs_bind _ _ db 1 tt db).
    - exact (runs_persist (ret tt) db (Resolved tt) db eq_refl).
    - apply runs_bind_failed. exact Hwork. }
  unfold transactionF. destruct (H r) as [H1 H2].
  destruct (enough r (1 + k)).
  - now rewrite (H1 eq_refl).
  - destruct (H2 eq_refl) as [db'' ->]. reflexivity.
Qed.

(** The unit of work with failures, in full: it is that of [update] when
    every call it makes resolves, and rolled back otherwise. *)
Lemma updateF_cases now req db r :
  updateF now req (mkWorld db r)
  = if enough r (callsOf now req db)
    then (outcomeOf (fst (update now req db)),
          mkWorld (snd (update now req db)) (spent r (callsOf now req db)))
    else (Failed PersistenceError, mkWorld db (Some 0%nat)).
Proof.
  unfold updateF, callsOf. rewrite update_cases.
  destruct (findMilestone req db) as [m|] eqn:Hfind.
  - destruct (completionBeforeStart m (entityOfRequest req)) eqn:Hval.
    + exact (transactionF_failed _ db 1 _ db r
               (workF_runs_invalid now req db m Hfind Hval)).
    + cbv zeta. cbn [fst snd outcomeOf].
      rewrite (transactionF_done _ db _ _ _ r
                 (workF_runs_accepted now req db m Hfind Hval)).
      cbv zeta.
      replace (1 + (2 + reindexCalls m (resolved now req m)
                          (writeRow (resolved now req m) (milestones db))
                    + cascadeCalls m (resolved now req m)
                        (mkDB (reindexRows m (resolved now req m)
                                 (writeRow (resolved now req m) (milestones db)))
                              (timeline db))) + 1)%nat
        with (3 + reindexCalls m (resolved now req m)
                    (writeRow (resolved now req m) (milestones db))
              + cascadeCalls m (resolved now req m)
                  (mkDB (reindexRows m (resolved now req m)
                           (writeRow (resolved now req m) (milestones db)))
                        (timeline db)) + 1)%nat by lia.
      reflexivity.
  - exact (transactionF_failed _ db 1 _ db r
             (workF_runs_not_found now req db Hfind)).
Qed.

(* ------------------------------------------------------------------ *)
(** ** Rejections, and the block after the commit *)


(** The rows the event of an accepted request carries. *)
Lemma accepted_rows_are_stored now req db original updated db' :
  NoDup (map Milestone.id (milestones db)) ->
  update now req db = (Resolved (original, updated), db') ->
  In original (milestones db)
  /\ In updated (milestones db')
  /\ Milestone.id original = Request.milestoneId req
  /\ Milestone.id updated = Request.milestoneId req.
Proof.
  intros Hnd Hrun.
  apply update_resolved_inv in Hrun. destruct Hrun as [Hfind [_ [Hu Hdb]]].
  pose proof (updated_in_store now req db original Hfind) as Hin1.
  apply findMilestone_some in Hfind. destruct Hfind as [Hin [_ Hid]].
  rewrite <- Hu in Hin1.
  split; [exact Hin|]. split; [|split; [exact Hid|]].
  - subst db'. unfold finalDB, cascadeDB. rewrite <- Hu.
    destruct (cascadeTriggered original updated); cbn [milestones];
      [|exact Hin1].
    set (rows1 := reindexRows original updated
                    (writeRow updated (milestones db))) in *.
    assert (Hnd1 : NoDup (map Milestone.id rows1))
      by (unfold rows1; rewrite Hu, store_ids_kept; exact Hnd).
    rewrite writeAll_as_map
      by (rewrite savedMilestones_id; now apply comingMilestones_NoDup).
    apply in_map_iff. exists updated. split; [|exact Hin1].
    apply savedVersion_not_downstream; auto.
    unfold isDownstream. rewrite Z.ltb_irrefl. apply andb_false_r.
  - rewrite Hu, resolved_id. exact Hid.
Qed.


(* ------------------------------------------------------------------ *)
(** ** The report handler *)

Section ReportProperties.

Context {MockReply Result Err DirectProjectId : Type}.
Variable mock : Z -> option string -> MockReply.
Variable directProjectIdOf : Z -> option DirectProjectId.
Variable truthy : DirectProjectId -> bool.
Variable errToString : Err -> string.

(** X13.  Without the mock, the handler answers 400, 404, 500 or 200, and 400
    comes first: a project that is not linked gets 400 whatever the report
    name and whatever Looker would answer. *)
Theorem report_status_by_precedence
    (isManager : bool)
    (findProjectRegSubmissions : DirectProjectId -> Err + Result)
    (findProjectBudget : Z -> bool -> Err + Result)
    (reqId projectId : Z) (reportName : option string) :
  let reply :=
    Report.getReport mock directProjectIdOf truthy isManager
      findProjectRegSubmissions findProjectBudget errToString
      false reqId projectId reportName in
  (Report.statusOf reply = Some 400
   <-> Report.linked directProjectIdOf truthy projectId = false)
  /\ (Report.statusOf reply = Some 404
      <-> Report.linked directProjectIdOf truthy projectId = true
          /\ Report.knownReport reportName = false)
  /\ (Report.statusOf reply = Some 200 \/ Report.statusOf reply = Some 500
      <-> Report.linked directProjectIdOf truthy projectId = true
          /\ Report.knownReport reportName = true)
  /\ (Report.statusOf reply = Some 400 ->
      reply = Report.Send 400 "Direct Project not linked")
  /\ (Report.statusOf reply = Some 404 ->
      reply = Report.Send 404 "Report not found").
Proof.
  cbv zeta. unfold Report.getReport, Report.linked, Report.pickReport,
    Report.knownReport.
  destruct (directProjectIdOf projectId) as [d|]; cbn;
    [destruct (truthy d); cbn;
     [destruct reportName as [name|]; cbn;
      [destruct (String.eqb name "summary"); cbn;
       [destruct (findProjectRegSubmissions d); cbn
       |destruct (String.eqb name "projectBudget"); cbn;
        [destruct (findProjectBudget projectId isManager); cbn|]]|]|]|];
    repeat split; intros;
    repeat match goal with
           | H : _ \/ _ |- _ => destruct H
           | H : _ /\ _ |- _ => destruct H
           end;
    try discriminate; try reflexivity; auto.
Qed.

(** X14.  The summary is the answer of [findProjectRegSubmissions] on the
    linked id, the budget that of [findProjectBudget] on the project id and
    the role; a query that throws gives 500 with the text of the error. *)
Theorem report_dispatch
    (isManager : bool)
    (findProjectRegSubmissions : DirectProjectId -> Err + Result)
    (findProjectBudget : Z -> bool -> Err + Result)
    (reqId projectId : Z) (d : DirectProjectId) :
  directProjectIdOf projectId = Some d -> truthy d = true ->
  let run name :=
    Report.getReport mock directProjectIdOf truthy isManager
      findProjectRegSubmissions findProjectBudget errToString
      false reqId projectId (Some name) in
  let answer (q : Err + Result) : Report.Reply MockReply Result :=
    match q with
    | inr result => Report.Json 200 reqId result
    | inl err => Report.Send 500 (errToString err)
    end in
  run "summary"%string = answer (findProjectRegSubmissions d)
  /\ run "projectBudget"%string = answer (findProjectBudget projectId isManager).
Proof.
  intros Hd Ht. cbv zeta. unfold Report.getReport, Report.pickReport.
  rewrite Hd, Ht. cbn. split.
  - destruct (findProjectRegSubmissions d); reflexivity.
  - destruct (findProjectBudget projectId isManager); reflexivity.
Qed.

(** X15.  Looker is consulted for the one report asked, and only for a linked
    project: the summary does not depend on the budget query nor on the
    role, the budget does not depend on the summary query, and the answer
    for a project that is not linked or a report that is not known depends
    on neither query. *)
Theorem report_consults_one_query
    (isManager isManager' : bool)
    (regSubmissions regSubmissions' : DirectProjectId -> Err + Result)
    (budget budget' : Z -> bool -> Err + Result)
    (USE_MOCK : bool) (reqId projectId : Z) (reportName : option string) :
  let run m r b :=
    Report.getReport mock directProjectIdOf truthy m r b errToString
      USE_MOCK reqId projectId reportName in
  (reportName = Some "summary"%string ->
   run isManager regSubmissions budget = run isManager' regSubmissions budget')
  /\ (reportName = Some "projectBudget"%string ->
      run isManager regSubmissions budget = run isManager regSubmissions' budget)
  /\ (Report.linked directProjectIdOf truthy projectId = false
      \/ Report.knownReport reportName = false ->
      run isManager regSubmissions budget
      = run isManager' regSubmissions' budget').
Proof.
  cbv zeta. unfold Report.getReport, Report.linked, Report.pickReport,
    Report.knownReport.
  destruct USE_MOCK; [repeat split; reflexivity|].
  destruct (directProjectIdOf projectId) as [d|]; [|repeat split; reflexivity].
  destruct (truthy d); cbn; [|repeat split; reflexivity].
  repeat split.
  - intros ->. reflexivity.
  - intros ->. reflexivity.
  - intros [H|H]; [discriminate|].
    destruct reportName as [name|]; [|reflexivity].
    apply orb_false_elim in H. destruct H as [-> ->]. reflexivity.
Qed.

End ReportProperties.

(* ------------------------------------------------------------------ *)
(** ** The properties at the sample data *)

Lemma cascade_twice_is_cascade_once_witness :
  updateComingMilestones rowA1 rowE1
    (snd (updateComingMilestones rowA1 rowE1 scenarioE))
  = updateComingMilestones rowA1 rowE1 scenarioE.
Proof.
  apply (cascade_twice_is_cascade_once rowA1 rowE1 scenarioE). distinct_ids.
Defined.

Lemma cascade_keeps_contiguous_rows_witness :
  cascadeLoop 42 false (utcDate 2024 1 6) false [rowA2; rowA3] = [rowA2; rowA3].
Proof.
  apply (cascade_keeps_contiguous_rows 42 (utcDate 2024 1 6) false [rowA2; rowA3]).
  repeat split.
Defined.

Lemma validation_reads_the_stored_startDate_witness :
  exists updated db',
    update noonOfFebruaryFirst (sampleRequest 1 activateAndComplete) oneRow
    = (Resolved (rowA1, updated), db')
    /\ Milestone.status updated = MILESTONE_STATUS.ACTIVE
    /\ Milestone.startDate updated = utcMidnight noonOfFebruaryFirst
    /\ Milestone.completionDate updated = Some (utcDate 2024 1 10)
    /\ utcDate 2024 1 10 < Milestone.startDate updated.
Proof.
  apply (validation_reads_the_stored_startDate
           noonOfFebruaryFirst (sampleRequest 1 activateAndComplete) oneRow
           rowA1 (utcDate 2024 1 10));
    try reflexivity; [discriminate|].
  split; [discriminate|reflexivity].
Defined.

Lemma other_timelines_untouched_witness :
  nth_error (milestones (finalDB 0 (sampleRequest 1 (onlyDuration 10))
                                 rowA1 twoTimelines)) 1
  = Some rowOfTimeline8.
Proof.
  pose proof (other_timelines_untouched
                0 (sampleRequest 1 (onlyDuration 10)) twoTimelines rowA1
                (resolved 0 (sampleRequest 1 (onlyDuration 10)) rowA1)
                (finalDB 0 (sampleRequest 1 (onlyDuration 10)) rowA1 twoTimelines)
                ltac:(distinct_ids)
                ltac:(apply update_run; reflexivity)) as H.
  destruct (nth_error (milestones (finalDB 0 (sampleRequest 1 (onlyDuration 10))
                                           rowA1 twoTimelines)) 1)
    as [r'|] eqn:E; [|vm_compute in E; discriminate].
  f_equal.
  apply (Forall2_nth_error _ _ _ 1 rowOfTimeline8 r' H eq_refl E).
  discriminate.
Defined.

Lemma rows_not_downstream_keep_their_dates_witness :
  nth_error (milestones (finalDB 0 (sampleRequest 2 (onlyDuration 7))
                                 rowA2 scenarioA)) 0
  = Some rowA1.
Proof.
  pose proof (rows_not_downstream_keep_their_dates
                0 (sampleRequest 2 (onlyDuration 7)) scenarioA rowA2
                (resolved 0 (sampleRequest 2 (onlyDuration 7)) rowA2)
                (finalDB 0 (sampleRequest 2 (onlyDuration 7)) rowA2 scenarioA)
                ltac:(distinct_ids)
                ltac:(apply update_run; reflexivity)) as H.
  destruct (nth_error (milestones (finalDB 0 (sampleRequest 2 (onlyDuration 7))
                                           rowA2 scenarioA)) 0)
    as [r'|] eqn:E; [|vm_compute in E; discriminate].
  pose proof (Forall2_nth_error _ _ _ 0 rowA1 r' H eq_refl E) as Hr.
  assert (Hdown : isDownstream (resolved 0 (sampleRequest 2 (onlyDuration 7)) rowA2)
                    r' = false).
  { vm_compute in E. injection E as <-. reflexivity. }
  rewrite (Hr ltac:(discriminate) Hdown).
  vm_compute in E. injection E as <-. reflexivity.
Defined.

Lemma updated_is_the_stored_row_witness :
  In (resolved 0 (sampleRequest 1 (onlyDuration 10)) rowA1)
     (milestones (finalDB 0 (sampleRequest 1 (onlyDuration 10)) rowA1 scenarioA)).
Proof.
  destruct (updated_is_the_stored_row
              0 (sampleRequest 1 (onlyDuration 10)) scenarioA rowA1
              (resolved 0 (sampleRequest 1 (onlyDuration 10)) rowA1)
              (finalDB 0 (sampleRequest 1 (onlyDuration 10)) rowA1 scenarioA)
              ltac:(distinct_ids)
              ltac:(apply update_run; reflexivity)) as [_ [_ [H _]]].
  exact H.
Defined.


Lemma consistent_rows_stay_consistent_witness :
  ~ datesConsistent rowInconsistent
  /\ forall r',
       nth_error (milestones (finalDB 0 (sampleRequest 1 (onlyDuration 10))
                                     rowA1 scenarioInconsistent)) 2 = Some r' ->
       datesConsistent r'.
Proof.
  split; [vm_compute; discriminate|]. intros r' Hr'.
  pose proof (consistent_rows_stay_consistent
                0 (sampleRequest 1 (onlyDuration 10)) scenarioInconsistent rowA1
                (resolved 0 (sampleRequest 1 (onlyDuration 10)) rowA1)
                (finalDB 0 (sampleRequest 1 (onlyDuration 10)) rowA1
                         scenarioInconsistent)
                ltac:(distinct_ids)
                ltac:(apply update_run; reflexivity)) as H.
  apply (Forall2_nth_error _ _ _ 2 rowA2 r' (H
           ltac:(intros d Hd; injection Hd as <-; lia) eq_refl) eq_refl Hr').
  reflexivity.
Defined.



Lemma report_dispatch_witness :
  Report.getReport (fun _ _ => tt) (fun p => Some (p + 1000))
    (fun d => negb (d =? 0)) true
    (fun d => inr d) (fun _ _ => inl "timeout"%string) (fun e : string => e)
    false 77 5 (Some "summary"%string)
  = Report.Json 200 77 1005
  /\ Report.getReport (fun _ _ => tt) (fun p => Some (p + 1000))
       (fun d => negb (d =? 0)) true
       (fun d => inr d) (fun _ _ => inl "timeout"%string) (fun e : string => e)
       false 77 5 (Some "projectBudget"%string)
     = Report.Send 500 "timeout".
Proof.
  apply (report_dispatch (fun _ _ => tt) (fun p => Some (p + 1000))
           (fun d => negb (d =? 0)) (fun e : string => e) true
           (fun d => inr d) (fun _ _ => inl "timeout"%string) 77 5 1005);
    reflexivity.
Defined.
